(** * ros2model: interface-definition parsing and type resolution

    A shallow embedding of [ros2model/api/__init__.py]: the line
    tokenizer [split_line], the type resolver [get_type_format], the three
    entity builders [process_msg_file], [process_srv_file] and
    [process_action_file], and the topic-name fixer [fix_topic_names].

    Python [str] values are modelled as [string]; a character is a code
    point below 256.  A [dict] is an insertion-ordered association list
    whose keys are [option string], because the builders may use [None]
    as a key.  The only exception the modelled code can raise is the
    [IndexError] of a list subscript; it is carried by the [exc] monad. *)

From Stdlib Require Import Strings.String Strings.Ascii.
From Stdlib Require Import Lists.List Bool.Bool Arith.PeanoNat Lia.
Import ListNotations.

Local Open Scope list_scope.
Local Open Scope string_scope.

(** ** Exceptions *)

Inductive exc (A : Type) : Type :=
| Ok (a : A)
| IndexError.

Arguments Ok {A} a.
Arguments IndexError {A}.

Definition bind {A B : Type} (m : exc A) (f : A -> exc B) : exc B :=
  match m with
  | Ok a => f a
  | IndexError => IndexError
  end.

Notation "x <- m ;; k" := (bind m (fun x => k))
  (at level 61, m at next level, right associativity).

(** [l[i]] for a Python list. *)
Definition getitem {A : Type} (l : list A) (i : nat) : exc A :=
  match nth_error l i with
  | Some a => Ok a
  | None => IndexError
  end.

(** ** Python string primitives *)

Module PyStr.

(** The line feed character and the one-character string made of it. *)
Definition LF : ascii := "010"%char.
Definition nl : string := String LF "".

(** [str.isspace] on one character, [Py_UNICODE_ISSPACE] below 256:
    TAB..CR, FS..US, SPACE, NEL and NBSP. *)
Definition is_space (c : ascii) : bool :=
  let n := nat_of_ascii c in
  (((9 <=? n) && (n <=? 13)) || ((28 <=? n) && (n <=? 32))
   || (n =? 133) || (n =? 160))%nat.

(** Every character of [s] satisfies [p]. *)
Fixpoint all_chars (p : ascii -> bool) (s : string) : bool :=
  match s with
  | "" => true
  | String c s' => p c && all_chars p s'
  end.

(** [s.isspace()]: non-empty and made of whitespace only. *)
Definition isspace (s : string) : bool :=
  match s with
  | "" => false
  | _ => all_chars is_space s
  end.

(** [s.startswith(p)]. *)
Definition startswith (s p : string) : bool := prefix p s.

(** [sub in s]. *)
Fixpoint contains (sub s : string) : bool :=
  prefix sub s ||
  match s with
  | "" => false
  | String _ s' => contains sub s'
  end.

(** [s.replace(old, new)] for a non-empty [old]: scan left to right; at an
    occurrence of [old] emit [new] and skip the rest of the occurrence
    ([skip] counts the characters still to drop). *)
Fixpoint replace_aux (old new : string) (skip : nat) (s : string) : string :=
  match s with
  | "" => ""
  | String c s' =>
      match skip with
      | S k => replace_aux old new k s'
      | O =>
          if prefix old s
          then new ++ replace_aux old new (String.length old - 1) s'
          else String c (replace_aux old new 0 s')
      end
  end.

(** With an empty [old], Python puts [new] before every character and at
    the end. *)
Fixpoint interleave (new s : string) : string :=
  match s with
  | "" => new
  | String c s' => new ++ String c (interleave new s')
  end.

Definition replace (old new s : string) : string :=
  match old with
  | "" => interleave new s
  | _ => replace_aux old new 0 s
  end.

(** [s.split(sep)] for a one-character separator; the result is never
    empty. *)
Fixpoint split_char (sep : ascii) (s : string) : list string :=
  match s with
  | "" => [""]
  | String c s' =>
      if Ascii.eqb c sep then "" :: split_char sep s'
      else match split_char sep s' with
           | h :: t => String c h :: t
           | [] => [String c ""]
           end
  end.

(** [s.lstrip()], [s.rstrip()] and [s.strip()]. *)
Fixpoint lstrip (s : string) : string :=
  match s with
  | "" => ""
  | String c s' => if is_space c then lstrip s' else s
  end.

Fixpoint rstrip (s : string) : string :=
  match s with
  | "" => ""
  | String c s' =>
      match rstrip s' with
      | "" => if is_space c then "" else String c ""
      | r => String c r
      end
  end.

Definition strip (s : string) : string := rstrip (lstrip s).

(** The maximal whitespace-free prefix of [s] and what follows it. *)
Fixpoint span_token (s : string) : string * string :=
  match s with
  | "" => ("", "")
  | String c s' =>
      if is_space c then ("", s)
      else let (tok, rest) := span_token s' in (String c tok, rest)
  end.

(** [s.split(maxsplit=1)]: whitespace splitting; leading whitespace is
    skipped, the first word is cut off, the whitespace after it is skipped
    and what is left, when not empty, is the second element as it is. *)
Definition split_maxsplit1 (s : string) : list string :=
  match lstrip s with
  | "" => []
  | s1 =>
      let (tok, rest) := span_token s1 in
      match lstrip rest with
      | "" => [tok]
      | rest' => [tok; rest']
      end
  end.

(** [re.sub(r"\[.*\]", "[]", s)].

    [dot_star_rbracket s] is the number of characters the sub-pattern
    [.*\]] consumes at the start of [s]: the greedy [.*] runs to the next
    line feed or to the end, then backtracks to the last [']'] of that
    run. *)
Fixpoint dot_star_rbracket (s : string) : option nat :=
  match s with
  | "" => None
  | String c s' =>
      if Ascii.eqb c LF then None
      else match dot_star_rbracket s' with
           | Some n => Some (S n)
           | None => if Ascii.eqb c "]" then Some 1 else None
           end
  end.

(** Length of the match of the whole pattern at the start of [s]. *)
Definition match_brackets (s : string) : option nat :=
  match s with
  | String c s' =>
      if Ascii.eqb c "[" then option_map S (dot_star_rbracket s') else None
  | "" => None
  end.

(** The substitution loop: leftmost match first, the scan resumes after
    each match. *)
Fixpoint re_sub_aux (skip : nat) (s : string) : string :=
  match s with
  | "" => ""
  | String c s' =>
      match skip with
      | S k => re_sub_aux k s'
      | O =>
          match match_brackets s with
          | Some n => "[]" ++ re_sub_aux (n - 1) s'
          | None => String c (re_sub_aux 0 s')
          end
      end
  end.

Definition re_sub_brackets (s : string) : string := re_sub_aux 0 s.

End PyStr.

Import PyStr.

(** ** The line tokenizer *)

(** [split_line]: the pair (type token, name token), [None] for a missing
    component.  [split[0] = ...] updates the list in place before the
    result is read from it. *)
Definition split_line (line : string) : exc (option string * option string) :=
  let line := replace nl "" line in
  if startswith line "#" || contains "=" line
     || (String.length line =? 0)%nat || isspace line
  then Ok (None, None)
  else
    line <- (if contains "#" line then getitem (split_char "#" line) 0
             else Ok line) ;;
    if isspace line then Ok (None, None)
    else
      let line := re_sub_brackets line in
      let split := split_maxsplit1 line in
      s0 <- getitem split 0 ;;
      let split := replace "/" "/msg/" s0 :: tl split in
      if (1 <? List.length split)%nat then
        t <- getitem split 0 ;;
        n <- getitem split 1 ;;
        Ok (Some (strip t), Some (strip n))
      else
        t <- getitem split 0 ;;
        Ok (Some (strip t), None).

(** ** The type resolver *)

Definition primitive_types : list string :=
  [ "bool"; "int8"; "uint8"; "int16"; "uint16"; "int32"; "uint32";
    "int64"; "uint64"; "float32"; "float64"; "string"; "byte"; "time";
    "duration"; "Header";
    "bool[]"; "int8[]"; "uint8[]"; "int16[]"; "uint16[]"; "int32[]";
    "uint32[]"; "int64[]"; "uint64[]"; "float32[]"; "float64[]";
    "string[]"; "byte[]" ].

(** [x in l] for a list of strings. *)
Definition str_in (x : string) (l : list string) : bool :=
  existsb (String.eqb x) l.

(** [get_type_format]: the pair (variable name, resolved type). *)
Definition get_type_format (line package_name : string)
  : exc (option string * option string) :=
  r <- split_line line ;;
  let (typename, variablename) := r in
  match typename with
  | Some typename =>
      if negb (str_in typename primitive_types) then
        let typename :=
          if negb (contains "/" typename)
          then package_name ++ "/msg/" ++ typename
          else typename in
        let typename := "'" ++ typename ++ "'" in
        let typename := replace "[]" "" typename ++ "[]" in
        Ok (variablename, Some typename)
      else Ok (variablename, Some typename)
  | None => Ok (variablename, None)
  end.

(** ** The data model *)

(** A dictionary key is a [str] or [None]. *)
Definition key : Type := option string.

Definition key_eqb (a b : key) : bool :=
  match a, b with
  | Some x, Some y => String.eqb x y
  | None, None => true
  | _, _ => false
  end.

(** A [dict] in insertion order. *)
Definition dict : Type := list (key * string).

(** [d[k] = v]: an existing key keeps its place and takes the new value, a
    new key goes to the end. *)
Fixpoint dict_set (k : key) (v : string) (d : dict) : dict :=
  match d with
  | [] => [(k, v)]
  | (k', v') :: d' =>
      if key_eqb k k' then (k', v) :: d' else (k', v') :: dict_set k v d'
  end.

(** [d.get(k)]. *)
Fixpoint dict_get (k : key) (d : dict) : option string :=
  match d with
  | [] => None
  | (k', v') :: d' => if key_eqb k k' then Some v' else dict_get k d'
  end.

Definition keys (d : dict) : list key := map fst d.

Record Message := mkMessage { msg_name : string; message : dict }.

Record Service :=
  mkService { srv_name : string; request : dict; response : dict }.

Record Action :=
  mkAction { action_name : string; goal : dict; result : dict;
             feedback : dict }.

(** A specification file as the builders see it: [Path.stem] and the lines
    that iterating over the open file yields (each one with its line feed,
    the last one possibly without). *)
Record SpecFile := mkSpecFile { stem : string; lines : list string }.

(** ** The entity builders *)

(** [for line in file: ...] over a loop state. *)
Fixpoint for_each {S : Type} (body : S -> string -> exc S) (st : S)
  (ls : list string) : exc S :=
  match ls with
  | [] => Ok st
  | l :: ls' => st' <- body st l ;; for_each body st' ls'
  end.

Definition msg_body (package_name : string) (message : dict) (line : string)
  : exc dict :=
  if contains "=" line then Ok message
  else
    let line := replace nl "" line in
    if (String.length line =? 0)%nat then Ok message
    else
      r <- get_type_format line package_name ;;
      let (variablename, typename) := r in
      match typename with
      | None => Ok message
      | Some typename => Ok (dict_set variablename typename message)
      end.

Definition process_msg_file (msg_file : SpecFile) (package_name : string)
  : exc (string * dict) :=
  let name := stem msg_file in
  message <- for_each (msg_body package_name) [] (lines msg_file) ;;
  Ok (name, message).

(** Loop state of the service builder: [resp], [request], [response]. *)
Definition srv_state : Type := bool * dict * dict.

Definition srv_body (package_name : string) (st : srv_state) (line : string)
  : exc srv_state :=
  let '(resp, request, response) := st in
  if contains "---" line then Ok (true, request, response)
  else
    r <- get_type_format line package_name ;;
    let (variablename, typename) := r in
    match typename with
    | None => Ok st
    | Some typename =>
        if resp
        then Ok (resp, request, dict_set variablename typename response)
        else Ok (resp, dict_set variablename typename request, response)
    end.

Definition process_srv_file (srv_file : SpecFile) (package_name : string)
  : exc (string * dict * dict) :=
  let name := stem srv_file in
  st <- for_each (srv_body package_name) (false, [], []) (lines srv_file) ;;
  let '(_, request, response) := st in
  Ok (name, request, response).

(** Loop state of the action builder: [border], [goal], [result],
    [feedback]. *)
Definition action_state : Type := nat * dict * dict * dict.

Definition action_body (package_name : string) (st : action_state)
  (line : string) : exc action_state :=
  let '(border, goal, result, feedback) := st in
  if contains "---" line then Ok (border + 1, goal, result, feedback)
  else
    r <- get_type_format line package_name ;;
    let (variablename, typename) := r in
    match typename with
    | None => Ok st
    | Some typename =>
        let goal :=
          if (border =? 0)%nat then dict_set variablename typename goal
          else goal in
        let result :=
          if (border =? 1)%nat then dict_set variablename typename result
          else result in
        let feedback :=
          if (border =? 2)%nat then dict_set variablename typename feedback
          else feedback in
        Ok (border, goal, result, feedback)
    end.

Definition process_action_file (action_file : SpecFile)
  (package_name : string) : exc (string * dict * dict * dict) :=
  let name := stem action_file in
  st <- for_each (action_body package_name) (0, [], [], [])
          (lines action_file) ;;
  let '(_, goal, result, feedback) := st in
  Ok (name, goal, result, feedback).

(** ** The directory aggregators, over the files already found *)

Fixpoint process_msg_dir (msg_files : list SpecFile) (package_name : string)
  : exc (list Message) :=
  match msg_files with
  | [] => Ok []
  | f :: fs =>
      r <- process_msg_file f package_name ;;
      let (name, message) := r in
      msgs <- process_msg_dir fs package_name ;;
      Ok (mkMessage name message :: msgs)
  end.

Fixpoint process_srv_dir (srv_files : list SpecFile) (package_name : string)
  : exc (list Service) :=
  match srv_files with
  | [] => Ok []
  | f :: fs =>
      r <- process_srv_file f package_name ;;
      let '(name, request, response) := r in
      srvs <- process_srv_dir fs package_name ;;
      Ok (mkService name request response :: srvs)
  end.

Fixpoint process_action_dir (action_files : list SpecFile)
  (package_name : string) : exc (list Action) :=
  match action_files with
  | [] => Ok []
  | f :: fs =>
      r <- process_action_file f package_name ;;
      let '(name, goal, result, feedback) := r in
      actions <- process_action_dir fs package_name ;;
      Ok (mkAction name goal result feedback :: actions)
  end.

(** ** The topic-name fixer *)

Record TopicInfo := mkTopicInfo { topic_name : string; types : list string }.

(** The loop of [fix_topic_names]; [node_name] is a loop-carried variable
    because the body assigns to it. *)
Fixpoint fix_topic_names_loop (node_name : string) (topics : list TopicInfo)
  (new_topics : list TopicInfo) : list TopicInfo :=
  match topics with
  | [] => new_topics
  | topic :: rest =>
      let node_name :=
        if negb (startswith node_name "/") then "/node_name"
        else node_name in
      let name := replace node_name "~" (topic_name topic) in
      fix_topic_names_loop node_name rest
        (new_topics ++ [mkTopicInfo name (types topic)])
  end.

Definition fix_topic_names (node_name : string) (topics : list TopicInfo)
  : list TopicInfo :=
  fix_topic_names_loop node_name topics [].

(** ** The topic-type fixer *)

(** The double quote as a one-character string. *)
Definition dquote : string := String "034"%char "".

(** [fix_topic_types] assigns to [topic.types[0]]: it changes the list
    object the record refers to.  The list objects live in a store and a
    record holds the address of its list, so that two records can share
    one list.  An address outside the store does not occur in Python; the
    model raises there. *)
Definition store : Type := list (list string).

Record TopicRef := mkTopicRef { ref_name : string; ref_types : nat }.

(** [l[i] = x] for a Python list. *)
Fixpoint setitem {A : Type} (l : list A) (i : nat) (x : A) : exc (list A) :=
  match l, i with
  | [], _ => IndexError
  | _ :: l', O => Ok (x :: l')
  | y :: l', S i' => l'' <- setitem l' i' x ;; Ok (y :: l'')
  end.

(** [topic.types[0]]. *)
Definition types0 (st : store) (topic : TopicRef) : exc string :=
  l <- getitem st (ref_types topic) ;;
  getitem l 0.

(** [topic.types[0] = v]. *)
Definition set_types0 (st : store) (topic : TopicRef) (v : string)
  : exc store :=
  l <- getitem st (ref_types topic) ;;
  l' <- setitem l 0 v ;;
  setitem st (ref_types topic) l'.

Definition fix_topic_types_body (st : store) (topic : TopicRef) : exc store :=
  t <- types0 st topic ;;
  st <- (if negb (contains "/" t)
         then t <- types0 st topic ;;
              set_types0 st topic (dquote ++ t ++ dquote)
         else Ok st) ;;
  t <- types0 st topic ;;
  st <- set_types0 st topic (replace "/msg/" "." t) ;;
  t <- types0 st topic ;;
  st <- set_types0 st topic (replace "/srv/" "." t) ;;
  t <- types0 st topic ;;
  set_types0 st topic (replace "/action/" "." t).

(** [for topic in topics: ...] over the store. *)
Fixpoint for_each_topic (body : store -> TopicRef -> exc store) (st : store)
  (topics : list TopicRef) : exc store :=
  match topics with
  | [] => Ok st
  | topic :: rest => st' <- body st topic ;; for_each_topic body st' rest
  end.

(** [fix_topic_types] returns nothing; the model returns the store it
    leaves behind. *)
Definition fix_topic_types (node_name : string) (st : store)
  (topics : list TopicRef) : exc store :=
  for_each_topic fix_topic_types_body st topics.

(** ** The parameter-type labels *)

(** The constants of [rcl_interfaces.msg.ParameterType], which this
    repository imports; their values are a parameter of the model. *)
Record ParameterType := mkParameterType {
  PARAMETER_NOT_SET : nat;
  PARAMETER_BOOL : nat;
  PARAMETER_INTEGER : nat;
  PARAMETER_DOUBLE : nat;
  PARAMETER_STRING : nat;
  PARAMETER_BYTE_ARRAY : nat;
  PARAMETER_BOOL_ARRAY : nat;
  PARAMETER_INTEGER_ARRAY : nat;
  PARAMETER_DOUBLE_ARRAY : nat;
  PARAMETER_STRING_ARRAY : nat }.

(** The dictionary display of [get_parameter_type_string], its items in
    the order of the source. *)
Definition parameter_type_items (P : ParameterType) : list (nat * string) :=
  [ (PARAMETER_BOOL P, "Boolean");
    (PARAMETER_INTEGER P, "Integer");
    (PARAMETER_DOUBLE P, "Double");
    (PARAMETER_STRING P, "String");
    (PARAMETER_BYTE_ARRAY P, "Array: Byte");
    (PARAMETER_BOOL_ARRAY P, "Array: Boolean");
    (PARAMETER_INTEGER_ARRAY P, "Array: Integer");
    (PARAMETER_DOUBLE_ARRAY P, "Array: Double");
    (PARAMETER_STRING_ARRAY P, "Array: String");
    (PARAMETER_NOT_SET P, "Any") ].

(** Subscripting a dictionary display: of the items with the key, the
    last one counts; [None] stands for [KeyError]. *)
Fixpoint display_lookup (k : nat) (items : list (nat * string))
  : option string :=
  match items with
  | [] => None
  | (k', v) :: rest =>
      match display_lookup k rest with
      | Some v' => Some v'
      | None => if (k =? k')%nat then Some v else None
      end
  end.

Definition get_parameter_type_string (P : ParameterType)
  (parameter_type : nat) : option string :=
  display_lookup parameter_type (parameter_type_items P).

(** * The vocabulary of the statements *)

(** ** Character classes *)

(** [c] does not occur in [s]. *)
Definition lacks (c : ascii) (s : string) : bool :=
  all_chars (fun x => negb (Ascii.eqb x c)) s.

(** No whitespace in [s]. *)
Definition nospace (s : string) : bool :=
  all_chars (fun x => negb (is_space x)) s.

(** A character of an unscoped type name: no whitespace, none of the
    characters the tokenizer gives a meaning to, no package separator. *)
Definition token_char (c : ascii) : bool :=
  negb (is_space c) && negb (Ascii.eqb c "#") && negb (Ascii.eqb c "=")
  && negb (Ascii.eqb c "[") && negb (Ascii.eqb c "]")
  && negb (Ascii.eqb c "/").

(** A character of a field name. *)
Definition name_char (c : ascii) : bool :=
  negb (is_space c) && negb (Ascii.eqb c "#") && negb (Ascii.eqb c "=")
  && negb (Ascii.eqb c "[") && negb (Ascii.eqb c "]").

(** A character of an array annotation, the text between the brackets. *)
Definition annotation_char (c : ascii) : bool :=
  negb (Ascii.eqb c LF) && negb (Ascii.eqb c "#") && negb (Ascii.eqb c "=").

(** A type token without package separator and without array annotation. *)
Definition unscoped_type (t : string) : bool :=
  negb (String.eqb t "") && all_chars token_char t.

Definition field_name (n : string) : bool :=
  negb (String.eqb n "") && all_chars name_char n.

Definition annotation (a : string) : bool := all_chars annotation_char a.

(** ** Sections of a specification file *)

(** What the three loop bodies share: resolve the line and, when it has a
    type, store the field in the FieldSet that is active. *)
Definition field_body (package_name : string) (fields : dict) (line : string)
  : exc dict :=
  r <- get_type_format line package_name ;;
  let (variablename, typename) := r in
  match typename with
  | None => Ok fields
  | Some typename => Ok (dict_set variablename typename fields)
  end.

(** The FieldSet a list of lines builds, starting from [fields]. *)
Definition section_fields (package_name : string) (ls : list string)
  (fields : dict) : exc dict :=
  for_each (field_body package_name) fields ls.

(** The separator test of the service and action builders. *)
Definition is_separator (line : string) : bool := contains "---" line.

Definition count_separators (ls : list string) : nat :=
  List.length (filter is_separator ls).

(** The lines before the first separator. *)
Fixpoint request_lines (ls : list string) : list string :=
  match ls with
  | [] => []
  | l :: ls' => if is_separator l then [] else l :: request_lines ls'
  end.

(** The lines after the first separator that are not separators. *)
Fixpoint response_lines (ls : list string) : list string :=
  match ls with
  | [] => []
  | l :: ls' =>
      if is_separator l then filter (fun l => negb (is_separator l)) ls'
      else response_lines ls'
  end.

(** The lines read while the counter, started at [b], is [k]. *)
Fixpoint lines_at (k b : nat) (ls : list string) : list string :=
  match ls with
  | [] => []
  | l :: ls' =>
      if is_separator l then lines_at k (b + 1) ls'
      else if (b =? k)%nat then l :: lines_at k b ls'
      else lines_at k b ls'
  end.

(** ** The primitive set and the separator, as the specification words them *)

(** The sixteen primitive names and the thirteen of them whose array form
    is in [primitive_types] too. *)
Definition primitive_names : list string :=
  [ "bool"; "int8"; "uint8"; "int16"; "uint16"; "int32"; "uint32";
    "int64"; "uint64"; "float32"; "float64"; "string"; "byte"; "time";
    "duration"; "Header" ].

Definition array_primitive_names : list string :=
  [ "bool"; "int8"; "uint8"; "int16"; "uint16"; "int32"; "uint32";
    "int64"; "uint64"; "float32"; "float64"; "string"; "byte" ].

(** The separator test as the specification words it: the line, its line
    feed apart, consists of three or more dash characters. *)
Definition separator_marker (line : string) : bool :=
  let line := replace nl "" line in
  (3 <=? String.length line)%nat && all_chars (Ascii.eqb "-") line.

(** ** Further vocabulary *)

(** A run of whitespace without line feed: indentation, alignment,
    trailing blanks. *)
Definition blank_run (w : string) : bool :=
  all_chars (fun c => is_space c && negb (Ascii.eqb c LF)) w.

(** A field as a (type, name) pair, and the line of a file that
    declares it. *)
Definition field_line (f : string * string) : string :=
  fst f ++ " " ++ snd f ++ nl.

(** The type string of an unscoped type name declared in [package_name]:
    a primitive as it is, anything else quoted and qualified. *)
Definition resolved_type (package_name t : string) : string :=
  if str_in t primitive_types then t
  else "'" ++ package_name ++ "/msg/" ++ t ++ "'[]".

Definition field_entry (package_name : string) (f : string * string)
  : key * string :=
  (Some (snd f), resolved_type package_name (fst f)).

(** A section of field declarations: every line is [T NAME] with an
    unscoped type name and a field name, the names differ, and no line
    holds three dashes in a row. *)
Definition declares (fields : list (string * string)) : Prop :=
  forallb (fun f => unscoped_type (fst f) && field_name (snd f)) fields = true
  /\ NoDup (map snd fields)
  /\ forallb (fun f => negb (is_separator (field_line f))) fields = true.

(** What [fix_topic_types] makes of one type string. *)
Definition fix_type_string (t : string) : string :=
  let t := if negb (contains "/" t) then dquote ++ t ++ dquote else t in
  replace "/action/" "." (replace "/srv/" "." (replace "/msg/" "." t)).

(** The node name [fix_topic_names] works with. *)
Definition effective_node_name (node_name : string) : string :=
  if negb (startswith node_name "/") then "/node_name" else node_name.

(** * Facts about the string primitives *)

Module PyStrFacts.

Lemma append_nil_r (s : string) : s ++ "" = s.
Proof. induction s as [|c s IH]; simpl; [reflexivity | now rewrite IH]. Qed.

Lemma append_assoc (a b c : string) : (a ++ b) ++ c = a ++ (b ++ c).
Proof. induction a as [|x a IH]; simpl; [reflexivity | now rewrite IH]. Qed.

Lemma length_append (a b : string) :
  String.length (a ++ b) = String.length a + String.length b.
Proof. induction a as [|x a IH]; simpl; [reflexivity | now rewrite IH]. Qed.

Lemma append_inv_head (a b c : string) : a ++ b = a ++ c -> b = c.
Proof.
  induction a as [|x a IH]; simpl; intros H; [exact H|].
  injection H as H. now apply IH.
Qed.

Lemma all_chars_app p a b :
  all_chars p (a ++ b) = all_chars p a && all_chars p b.
Proof.
  induction a as [|x a IH]; simpl; [reflexivity|].
  now rewrite IH, andb_assoc.
Qed.

Lemma all_chars_impl (p q : ascii -> bool) s :
  (forall c, p c = true -> q c = true) ->
  all_chars p s = true -> all_chars q s = true.
Proof.
  intros Hpq. induction s as [|x s IH]; simpl; [reflexivity|].
  intros H. apply andb_true_iff in H as [Hx Hs].
  now rewrite (Hpq _ Hx), IH.
Qed.

Lemma lacks_app c a b : lacks c (a ++ b) = lacks c a && lacks c b.
Proof. apply all_chars_app. Qed.

Lemma lacks_cons c x s :
  lacks c (String x s) = negb (Ascii.eqb x c) && lacks c s.
Proof. reflexivity. Qed.

Lemma nospace_lacks_LF s : nospace s = true -> lacks LF s = true.
Proof.
  apply all_chars_impl. intros c Hc.
  destruct (Ascii.eqb_spec c LF) as [->|]; [discriminate Hc | reflexivity].
Qed.

(** ** [prefix], [startswith] and [contains] *)

Lemma prefix_cons a s1 b s2 :
  prefix (String a s1) (String b s2) = Ascii.eqb a b && prefix s1 s2.
Proof.
  simpl. destruct (ascii_dec a b) as [->|Hn].
  - now rewrite Ascii.eqb_refl.
  - apply Ascii.eqb_neq in Hn. now rewrite Hn.
Qed.

Lemma prefix_app (p s : string) : prefix p (p ++ s) = true.
Proof.
  induction p as [|a p IH]; [now destruct s|].
  change (String a p ++ s) with (String a (p ++ s)).
  now rewrite prefix_cons, Ascii.eqb_refl, IH.
Qed.

Lemma prefix_lacks c old s :
  lacks c s = true -> prefix (String c old) s = false.
Proof.
  destruct s as [|x s]; [reflexivity|].
  rewrite lacks_cons, prefix_cons. intros H.
  apply andb_true_iff in H as [H _]. apply negb_true_iff in H.
  now rewrite Ascii.eqb_sym, H.
Qed.

Lemma contains_lacks c old s :
  lacks c s = true -> contains (String c old) s = false.
Proof.
  induction s as [|x s IH]; intros H; [reflexivity|].
  cbn [contains]. rewrite (prefix_lacks _ _ _ H).
  rewrite lacks_cons in H. apply andb_true_iff in H as [_ H].
  now apply IH.
Qed.

(** Membership of a one-character string is occurrence of the character. *)
Lemma contains_char c s : contains (String c "") s = negb (lacks c s).
Proof.
  induction s as [|x s IH]; [reflexivity|].
  cbn [contains]. rewrite prefix_cons, lacks_cons, IH.
  rewrite (Ascii.eqb_sym c x).
  destruct (Ascii.eqb x c); simpl.
  - now destruct s.
  - reflexivity.
Qed.

Lemma contains_false_cons old x s :
  contains old (String x s) = false ->
  prefix old (String x s) = false /\ contains old s = false.
Proof. cbn [contains]. intros H. now apply orb_false_iff in H. Qed.

Lemma prefix_nil s : prefix "" s = true.
Proof. now destruct s. Qed.

(** ** [replace] *)

Lemma replace_aux_skip old new a x :
  replace_aux old new (String.length a) (a ++ x) = replace_aux old new 0 x.
Proof. induction a as [|y a IH]; [reflexivity | exact IH]. Qed.

Lemma replace_aux_app_lacks c old new a x :
  lacks c a = true ->
  replace_aux (String c old) new 0 (a ++ x)
  = a ++ replace_aux (String c old) new 0 x.
Proof.
  induction a as [|y a IH]; intros H; [reflexivity|].
  rewrite lacks_cons in H. apply andb_true_iff in H as [Hy Ha].
  apply negb_true_iff in Hy.
  cbn [append replace_aux]. rewrite prefix_cons, Ascii.eqb_sym, Hy. simpl.
  now rewrite IH.
Qed.

Lemma replace_app_lacks c old new a x :
  lacks c a = true ->
  replace (String c old) new (a ++ x) = a ++ replace (String c old) new x.
Proof. apply replace_aux_app_lacks. Qed.

Lemma replace_lacks c old new s :
  lacks c s = true -> replace (String c old) new s = s.
Proof.
  intros H. rewrite <- (append_nil_r s) at 1.
  rewrite (replace_app_lacks _ _ _ _ _ H). apply append_nil_r.
Qed.

Lemma replace_not_contains old new s :
  old <> "" -> contains old s = false -> replace old new s = s.
Proof.
  destruct old as [|c old]; [congruence|]. intros _.
  unfold replace. induction s as [|x s IH]; intros H; [reflexivity|].
  apply contains_false_cons in H as [Hp Hs].
  cbn [replace_aux]. rewrite Hp. now rewrite IH.
Qed.

Lemma replace_prefix old new rest :
  old <> "" -> replace old new (old ++ rest) = new ++ replace old new rest.
Proof.
  destruct old as [|c old]; [congruence|]. intros _.
  unfold replace. change (String c old ++ rest) with (String c (old ++ rest)).
  cbn [replace_aux].
  change (String c (old ++ rest)) with (String c old ++ rest).
  rewrite prefix_app. cbn [String.length]. rewrite Nat.sub_succ, Nat.sub_0_r.
  now rewrite replace_aux_skip.
Qed.

Lemma replace_char_cons c new x s :
  replace (String c "") new (String x s)
  = if Ascii.eqb x c then new ++ replace (String c "") new s
    else String x (replace (String c "") new s).
Proof.
  unfold replace. cbn [replace_aux]. rewrite prefix_cons, prefix_nil.
  rewrite andb_true_r, Ascii.eqb_sym. reflexivity.
Qed.

Lemma replace_char_app c new a b :
  replace (String c "") new (a ++ b)
  = replace (String c "") new a ++ replace (String c "") new b.
Proof.
  induction a as [|x a IH]; [reflexivity|].
  change (String x a ++ b) with (String x (a ++ b)).
  rewrite !replace_char_cons, IH.
  destruct (Ascii.eqb x c); [now rewrite append_assoc | reflexivity].
Qed.

(** Removing a character, as [line.replace("\n", "")] does. *)
Lemma remove_lacks d s : lacks d (replace (String d "") "" s) = true.
Proof.
  induction s as [|x s IH]; [reflexivity|].
  rewrite replace_char_cons. destruct (Ascii.eqb x d) eqn:E; [exact IH|].
  now rewrite lacks_cons, E, IH.
Qed.

Lemma remove_idem d s :
  replace (String d "") "" (replace (String d "") "" s)
  = replace (String d "") "" s.
Proof. apply replace_lacks, remove_lacks. Qed.

Lemma lacks_remove c d s :
  c <> d -> lacks c (replace (String d "") "" s) = lacks c s.
Proof.
  intros Hcd. induction s as [|x s IH]; [reflexivity|].
  rewrite replace_char_cons. destruct (Ascii.eqb x d) eqn:E.
  - apply Ascii.eqb_eq in E. subst x. cbn [append]. rewrite lacks_cons, IH.
    apply not_eq_sym, Ascii.eqb_neq in Hcd. now rewrite Hcd.
  - now rewrite !lacks_cons, IH.
Qed.

Lemma remove_trailing d s :
  replace (String d "") "" (s ++ String d "") = replace (String d "") "" s.
Proof.
  rewrite replace_char_app, replace_char_cons, Ascii.eqb_refl.
  apply append_nil_r.
Qed.

(** Moving past a prefix that holds no ["[]"]. *)
Lemma replace_arr_app a x :
  contains "[]" a = false -> prefix "]" x = false ->
  replace "[]" "" (a ++ x) = a ++ replace "[]" "" x.
Proof.
  intros Ha Hx. induction a as [|y a IH]; [reflexivity|].
  apply contains_false_cons in Ha as [Hp Ha].
  unfold replace in *. cbn [append replace_aux].
  rewrite prefix_cons in Hp |- *.
  assert (E : Ascii.eqb "[" y && prefix "]" (a ++ x) = false).
  { destruct (Ascii.eqb "[" y); [simpl in *|reflexivity].
    destruct a as [|z a]; [exact Hx|].
    rewrite prefix_cons in Hp.
    change (String z a ++ x) with (String z (a ++ x)).
    rewrite prefix_cons, prefix_nil.
    destruct (Ascii.eqb "]" z); [|reflexivity].
    rewrite prefix_nil in Hp. discriminate Hp. }
  rewrite E. now rewrite IH.
Qed.

(** ** The bracket substitution *)

Lemma dot_star_lacks s : lacks "]" s = true -> dot_star_rbracket s = None.
Proof.
  induction s as [|c s IH]; intros H; [reflexivity|].
  rewrite lacks_cons in H. apply andb_true_iff in H as [Hc Hs].
  apply negb_true_iff in Hc. cbn [dot_star_rbracket].
  rewrite (IH Hs), Hc. now destruct (Ascii.eqb c LF).
Qed.

Lemma dot_star_last mid rest :
  lacks LF mid = true -> lacks "]" rest = true ->
  dot_star_rbracket (mid ++ String "]" rest) = Some (S (String.length mid)).
Proof.
  intros Hm Hr. induction mid as [|c mid IH].
  - cbn. now rewrite (dot_star_lacks _ Hr).
  - rewrite lacks_cons in Hm. apply andb_true_iff in Hm as [Hc Hm].
    apply negb_true_iff in Hc.
    cbn [append dot_star_rbracket String.length]. now rewrite Hc, (IH Hm).
Qed.

Lemma re_sub_aux_skip a x :
  re_sub_aux (String.length a) (a ++ x) = re_sub_aux 0 x.
Proof. induction a as [|y a IH]; [reflexivity | exact IH]. Qed.

Lemma re_sub_lacks_close s : lacks "]" s = true -> re_sub_aux 0 s = s.
Proof.
  induction s as [|c s IH]; intros H; [reflexivity|].
  rewrite lacks_cons in H. apply andb_true_iff in H as [_ Hs].
  cbn [re_sub_aux match_brackets]. rewrite (dot_star_lacks _ Hs).
  destruct (Ascii.eqb c "["); cbn [option_map]; now rewrite (IH Hs).
Qed.

Lemma re_sub_aux_app_lacks a x :
  lacks "[" a = true -> re_sub_aux 0 (a ++ x) = a ++ re_sub_aux 0 x.
Proof.
  induction a as [|c a IH]; intros H; [reflexivity|].
  rewrite lacks_cons in H. apply andb_true_iff in H as [Hc Ha].
  apply negb_true_iff in Hc.
  cbn [append re_sub_aux match_brackets]. now rewrite Hc, (IH Ha).
Qed.

Lemma re_sub_lacks_open s :
  lacks "[" s = true -> re_sub_brackets s = s.
Proof.
  intros H. unfold re_sub_brackets. rewrite <- (append_nil_r s) at 1.
  rewrite (re_sub_aux_app_lacks _ _ H). apply append_nil_r.
Qed.

(** The one match runs from the first ['['] to the last [']']. *)
Lemma re_sub_collapse a mid rest :
  lacks "[" a = true -> lacks LF mid = true -> lacks "]" rest = true ->
  re_sub_brackets (a ++ "[" ++ mid ++ "]" ++ rest) = a ++ "[]" ++ rest.
Proof.
  intros Ha Hm Hr. unfold re_sub_brackets.
  rewrite (re_sub_aux_app_lacks _ _ Ha). f_equal.
  cbn [append re_sub_aux match_brackets Ascii.eqb Bool.eqb].
  rewrite (dot_star_last _ _ Hm Hr). cbn [option_map Nat.sub]. do 2 f_equal.
  replace (S (String.length mid)) with (String.length (mid ++ "]"))
    by (rewrite length_append; simpl; lia).
  change (String "]" rest) with ("]" ++ rest).
  rewrite <- append_assoc, re_sub_aux_skip.
  now rewrite (re_sub_lacks_close _ Hr).
Qed.

Lemma re_sub_nonblank s :
  all_chars is_space s = false ->
  all_chars is_space (re_sub_brackets s) = false.
Proof.
  unfold re_sub_brackets. induction s as [|c s IH]; intros H; [discriminate H|].
  cbn [re_sub_aux]. destruct (match_brackets (String c s)); [reflexivity|].
  cbn [all_chars] in *. destruct (is_space c); [|reflexivity].
  simpl in *. now apply IH.
Qed.

(** ** Whitespace splitting and stripping *)

Lemma lstrip_nospace s : nospace s = true -> lstrip s = s.
Proof.
  destruct s as [|c s]; [reflexivity|]. unfold nospace. cbn [all_chars lstrip].
  intros H. apply andb_true_iff in H as [Hc _]. apply negb_true_iff in Hc.
  now rewrite Hc.
Qed.

Lemma rstrip_nospace s : nospace s = true -> rstrip s = s.
Proof.
  induction s as [|c s IH]; [reflexivity|]. unfold nospace in *.
  cbn [all_chars rstrip]. intros H. apply andb_true_iff in H as [Hc Hs].
  apply negb_true_iff in Hc. rewrite (IH Hs), Hc. now destruct s.
Qed.

Lemma strip_nospace s : nospace s = true -> strip s = s.
Proof.
  intros H. unfold strip. rewrite (lstrip_nospace _ H).
  now apply rstrip_nospace.
Qed.

Lemma lstrip_nonblank s :
  all_chars is_space s = false -> lstrip s <> "".
Proof.
  induction s as [|c s IH]; [discriminate|]. cbn [all_chars lstrip].
  destruct (is_space c); [exact IH | discriminate].
Qed.

Lemma split_maxsplit1_nonblank s :
  all_chars is_space s = false -> split_maxsplit1 s <> [].
Proof.
  intros H. apply lstrip_nonblank in H. unfold split_maxsplit1.
  destruct (lstrip s) as [|c r]; [congruence|].
  destruct (span_token (String c r)) as [tok rest].
  destruct (lstrip rest); discriminate.
Qed.

Lemma span_token_app t x :
  nospace t = true -> span_token x = ("", x) -> span_token (t ++ x) = (t, x).
Proof.
  intros Ht Hx. induction t as [|c t IH]; [exact Hx|].
  unfold nospace in *. cbn [all_chars] in Ht.
  apply andb_true_iff in Ht as [Hc Ht]. apply negb_true_iff in Hc.
  cbn [append span_token]. now rewrite Hc, (IH Ht).
Qed.

Lemma split_maxsplit1_single t :
  t <> "" -> nospace t = true -> split_maxsplit1 t = [t].
Proof.
  intros Hne Ht. unfold split_maxsplit1. rewrite (lstrip_nospace _ Ht).
  destruct t as [|c t]; [congruence|].
  rewrite <- (append_nil_r (String c t)) at 1.
  now rewrite (span_token_app _ "" Ht eq_refl).
Qed.

Lemma split_maxsplit1_pair t n :
  t <> "" -> nospace t = true -> n <> "" -> nospace n = true ->
  split_maxsplit1 (t ++ " " ++ n) = [t; n].
Proof.
  intros Hte Ht Hne Hn. unfold split_maxsplit1.
  destruct t as [|c t]; [congruence|].
  assert (Hc : is_space c = false).
  { unfold nospace in Ht. cbn [all_chars] in Ht.
    apply andb_true_iff in Ht as [Hc _]. now apply negb_true_iff in Hc. }
  change (String c t ++ " " ++ n) with (String c (t ++ " " ++ n)).
  cbn [lstrip]. rewrite Hc.
  change (String c (t ++ " " ++ n)) with (String c t ++ " " ++ n).
  rewrite (span_token_app _ (" " ++ n) Ht eq_refl).
  change (lstrip (" " ++ n)) with (lstrip n).
  rewrite (lstrip_nospace _ Hn). now destruct n.
Qed.

End PyStrFacts.

Import PyStrFacts.

(** * Field lines *)

Lemma all_chars_lacks p s c :
  all_chars p s = true -> p c = false -> lacks c s = true.
Proof.
  intros Hs Hc. revert Hs. apply all_chars_impl. intros x Hx.
  destruct (Ascii.eqb_spec x c) as [->|]; [congruence | reflexivity].
Qed.

Lemma token_char_nospace c : token_char c = true -> negb (is_space c) = true.
Proof. unfold token_char. now destruct (is_space c). Qed.

Lemma name_char_nospace c : name_char c = true -> negb (is_space c) = true.
Proof. unfold name_char. now destruct (is_space c). Qed.

Lemma unscoped_type_inv t :
  unscoped_type t = true -> t <> "" /\ all_chars token_char t = true.
Proof.
  unfold unscoped_type. intros H. apply andb_true_iff in H as [Hn Hc].
  split; [|exact Hc]. apply negb_true_iff in Hn. now apply String.eqb_neq.
Qed.

Lemma field_name_inv n :
  field_name n = true -> n <> "" /\ all_chars name_char n = true.
Proof.
  unfold field_name. intros H. apply andb_true_iff in H as [Hn Hc].
  split; [|exact Hc]. apply negb_true_iff in Hn. now apply String.eqb_neq.
Qed.

(** Side conditions on the characters of a line assembled from parts. *)
Ltac chars :=
  rewrite ?lacks_app; unfold nospace; rewrite ?all_chars_app;
  repeat (apply andb_true_intro; split);
  first
    [ reflexivity
    | assumption
    | match goal with
      | H : all_chars ?p ?s = true |- lacks ?c ?s = true =>
          apply (all_chars_lacks p s c H); reflexivity
      | H : all_chars token_char ?s = true |- all_chars _ ?s = true =>
          revert H; apply all_chars_impl; exact token_char_nospace
      | H : all_chars name_char ?s = true |- all_chars _ ?s = true =>
          revert H; apply all_chars_impl; exact name_char_nospace
      end ].

(** ** What [split_line] does on a line without line feed, ['='] or ['#'] *)

Section PlainLine.

Variable line : string.
Hypothesis no_lf : lacks LF line = true.
Hypothesis no_eq : lacks "=" line = true.
Hypothesis no_hash : lacks "#" line = true.
Hypothesis not_blank : all_chars is_space line = false.

Lemma split_line_plain :
  split_line line =
  (s0 <- getitem (split_maxsplit1 (re_sub_brackets line)) 0 ;;
   let split :=
     replace "/" "/msg/" s0 :: tl (split_maxsplit1 (re_sub_brackets line)) in
   if (1 <? List.length split)%nat then
     t <- getitem split 0 ;;
     n <- getitem split 1 ;;
     Ok (Some (strip t), Some (strip n))
   else
     t <- getitem split 0 ;;
     Ok (Some (strip t), None)).
Proof.
  unfold split_line. unfold nl. rewrite (replace_lacks _ _ _ _ no_lf).
  unfold startswith. rewrite (prefix_lacks _ _ _ no_hash).
  rewrite !(contains_lacks _ _ _ no_eq), !(contains_lacks _ _ _ no_hash).
  assert (Hs : isspace line = false).
  { unfold isspace. destruct line; [reflexivity | exact not_blank]. }
  assert (Hl : (String.length line =? 0)%nat = false).
  { destruct line; [discriminate not_blank | reflexivity]. }
  rewrite Hs, Hl. cbn [orb bind]. rewrite Hs. reflexivity.
Qed.

Lemma split_line_plain_pair t n :
  split_maxsplit1 (re_sub_brackets line) = [t; n] ->
  split_line line = Ok (Some (strip (replace "/" "/msg/" t)), Some (strip n)).
Proof. intros E. rewrite split_line_plain, E. reflexivity. Qed.

Lemma split_line_plain_single t :
  split_maxsplit1 (re_sub_brackets line) = [t] ->
  split_line line = Ok (Some (strip (replace "/" "/msg/" t)), None).
Proof. intros E. rewrite split_line_plain, E. reflexivity. Qed.

End PlainLine.

Lemma not_blank_token t x :
  t <> "" -> nospace t = true -> all_chars is_space (t ++ x) = false.
Proof.
  intros Hne Ht. destruct t as [|c t]; [congruence|].
  unfold nospace in Ht. cbn [all_chars append] in *.
  apply andb_true_iff in Ht as [Hc _]. apply negb_true_iff in Hc.
  now rewrite Hc.
Qed.

(** The field line [T NAME]. *)
Lemma split_line_scalar_field t n :
  unscoped_type t = true -> field_name n = true ->
  split_line (t ++ " " ++ n) = Ok (Some t, Some n).
Proof.
  intros Ht Hn. apply unscoped_type_inv in Ht as [Hte Ht].
  apply field_name_inv in Hn as [Hne Hn].
  assert (St : nospace t = true) by chars.
  assert (Sn : nospace n = true) by chars.
  assert (L1 : lacks LF (t ++ " " ++ n) = true) by chars.
  assert (L2 : lacks "=" (t ++ " " ++ n) = true) by chars.
  assert (L3 : lacks "#" (t ++ " " ++ n) = true) by chars.
  rewrite (split_line_plain_pair (t ++ " " ++ n) L1 L2 L3
             (not_blank_token _ _ Hte St) t n).
  - rewrite (replace_lacks "/" "" "/msg/" t) by chars.
    now rewrite !strip_nospace.
  - rewrite re_sub_lacks_open by chars.
    now apply split_maxsplit1_pair.
Qed.

(** The field line [T[ann] NAME]. *)
Lemma split_line_array_field t a n :
  unscoped_type t = true -> annotation a = true -> field_name n = true ->
  split_line (t ++ "[" ++ a ++ "]" ++ " " ++ n) = Ok (Some (t ++ "[]"), Some n).
Proof.
  intros Ht Ha Hn. apply unscoped_type_inv in Ht as [Hte Ht].
  apply field_name_inv in Hn as [Hne Hn]. unfold annotation in Ha.
  assert (St : nospace t = true) by chars.
  assert (Sn : nospace n = true) by chars.
  assert (Sa : nospace (t ++ "[]") = true) by chars.
  set (line := t ++ "[" ++ a ++ "]" ++ " " ++ n).
  assert (L1 : lacks LF line = true) by (subst line; chars).
  assert (L2 : lacks "=" line = true) by (subst line; chars).
  assert (L3 : lacks "#" line = true) by (subst line; chars).
  rewrite (split_line_plain_pair line L1 L2 L3
             (not_blank_token _ _ Hte St) (t ++ "[]") n).
  - rewrite (replace_lacks "/" "" "/msg/" (t ++ "[]")) by chars.
    now rewrite !strip_nospace.
  - subst line. rewrite re_sub_collapse by chars.
    rewrite <- append_assoc. apply split_maxsplit1_pair; try assumption.
    now destruct t.
Qed.

(** ** What [get_type_format] does on field lines *)

(** Removing ["[]"] from a quoted, package-qualified name only touches
    what follows the type name. *)
Lemma quote_compound pkg t tail :
  contains "[]" pkg = false -> lacks "[" t = true ->
  replace "[]" "" ("'" ++ pkg ++ "/msg/" ++ t ++ tail)
  = "'" ++ pkg ++ "/msg/" ++ t ++ replace "[]" "" tail.
Proof.
  intros Hp Ht.
  rewrite (replace_app_lacks "[" "]" "" "'") by reflexivity. f_equal.
  rewrite replace_arr_app by (exact Hp || reflexivity). f_equal.
  rewrite <- (append_assoc "/msg/" t tail).
  rewrite (replace_app_lacks "[" "]" "" ("/msg/" ++ t)) by chars.
  now rewrite append_assoc.
Qed.

Lemma get_type_format_primitive line pkg t n :
  split_line line = Ok (Some t, n) ->
  str_in t primitive_types = true ->
  get_type_format line pkg = Ok (n, Some t).
Proof.
  intros E Hp. unfold get_type_format. rewrite E. cbn [bind].
  now rewrite Hp.
Qed.

Lemma get_type_format_unscoped line pkg t n :
  split_line line = Ok (Some t, n) ->
  str_in t primitive_types = false ->
  contains "/" t = false ->
  get_type_format line pkg
  = Ok (n, Some (replace "[]" "" ("'" ++ (pkg ++ "/msg/" ++ t) ++ "'") ++ "[]")).
Proof.
  intros E Hp Hs. unfold get_type_format. rewrite E. cbn [bind].
  now rewrite Hp, Hs.
Qed.

(** A compound field without array annotation still gets the suffix. *)
Lemma get_type_format_compound_scalar pkg t n :
  unscoped_type t = true -> field_name n = true ->
  str_in t primitive_types = false ->
  contains "[]" pkg = false ->
  get_type_format (t ++ " " ++ n) pkg
  = Ok (Some n, Some ("'" ++ pkg ++ "/msg/" ++ t ++ "'[]")).
Proof.
  intros Ht Hn Hc Hp.
  rewrite (get_type_format_unscoped _ pkg t (Some n)
             (split_line_scalar_field t n Ht Hn) Hc).
  - apply unscoped_type_inv in Ht as [_ Ht].
    rewrite !append_assoc. rewrite quote_compound by (exact Hp || chars).
    change (replace "[]" "" "'") with "'".
    rewrite !append_assoc. reflexivity.
  - apply unscoped_type_inv in Ht as [_ Ht]. apply contains_lacks. chars.
Qed.

Lemma get_type_format_compound_array pkg t a n :
  unscoped_type t = true -> annotation a = true -> field_name n = true ->
  str_in (t ++ "[]") primitive_types = false ->
  contains "[]" pkg = false ->
  get_type_format (t ++ "[" ++ a ++ "]" ++ " " ++ n) pkg
  = Ok (Some n, Some ("'" ++ pkg ++ "/msg/" ++ t ++ "'[]")).
Proof.
  intros Ht Ha Hn Hc Hp.
  rewrite (get_type_format_unscoped _ pkg (t ++ "[]") (Some n)
             (split_line_array_field t a n Ht Ha Hn) Hc).
  - apply unscoped_type_inv in Ht as [_ Ht].
    rewrite !append_assoc. rewrite quote_compound by (exact Hp || chars).
    change (replace "[]" "" ("[]" ++ "'")) with "'".
    rewrite !append_assoc. reflexivity.
  - apply unscoped_type_inv in Ht as [_ Ht]. apply contains_lacks. chars.
Qed.

(** ** [split_line] never raises *)

Lemma split_char_head c s :
  exists h t, split_char c s = h :: t /\
              (s <> "" -> prefix (String c "") s = false -> h <> "").
Proof.
  destruct s as [|x s]; [exists "", []; split; [reflexivity | congruence]|].
  cbn [split_char]. destruct (Ascii.eqb x c) eqn:E.
  - exists "", (split_char c s). split; [reflexivity|]. intros _ Hp.
    rewrite prefix_cons, prefix_nil, andb_true_r, Ascii.eqb_sym, E in Hp.
    discriminate Hp.
  - destruct (split_char c s) as [|h t].
    + exists (String x ""), []. split; [reflexivity | discriminate].
    + exists (String x h), t. split; [reflexivity | discriminate].
Qed.

Lemma tokens_total x :
  x <> "" ->
  exists r,
    (if isspace x then Ok (None, None)
     else
       let line := re_sub_brackets x in
       let split := split_maxsplit1 line in
       s0 <- getitem split 0 ;;
       let split := replace "/" "/msg/" s0 :: tl split in
       if (1 <? List.length split)%nat then
         t <- getitem split 0 ;;
         n <- getitem split 1 ;;
         Ok (Some (strip t), Some (strip n))
       else
         t <- getitem split 0 ;;
         Ok (Some (strip t), None)) = Ok r.
Proof.
  intros Hx. destruct (isspace x) eqn:Hs; [eauto|].
  assert (Hb : all_chars is_space x = false).
  { destruct x; [congruence | exact Hs]. }
  apply re_sub_nonblank, split_maxsplit1_nonblank in Hb.
  cbv zeta. destruct (split_maxsplit1 (re_sub_brackets x)) as [|s0 [|s1 tl]];
    [congruence | |]; cbn; eauto.
Qed.

Lemma split_line_total line : exists r, split_line line = Ok r.
Proof.
  unfold split_line. set (l := replace nl "" line).
  destruct (startswith l "#" || contains "=" l
            || (String.length l =? 0)%nat || isspace l) eqn:E; [eauto|].
  apply orb_false_iff in E as [E _]. apply orb_false_iff in E as [E Hl].
  apply orb_false_iff in E as [Hh _].
  assert (Hne : l <> "") by (destruct l; [discriminate Hl | discriminate]).
  destruct (contains "#" l).
  - destruct (split_char_head "#" l) as (h & t & Eh & Hh').
    rewrite Eh. cbn [getitem nth_error bind].
    apply tokens_total. now apply Hh'.
  - cbn [bind]. now apply tokens_total.
Qed.

Lemma get_type_format_total line pkg :
  exists r, get_type_format line pkg = Ok r.
Proof.
  unfold get_type_format. destruct (split_line_total line) as [[t n] E].
  rewrite E. cbn [bind]. destruct t as [t|]; [|eauto].
  destruct (negb (str_in t primitive_types)); eauto.
Qed.

(** The name comes back as the tokenizer gave it; the type is [None]
    exactly when the tokenizer gave none. *)
Lemma get_type_format_none line pkg :
  split_line line = Ok (None, None) ->
  get_type_format line pkg = Ok (None, None).
Proof. intros E. unfold get_type_format. now rewrite E. Qed.

(** ** Constant declarations *)

Lemma contains_eq_remove_nl line :
  contains "=" (replace nl "" line) = contains "=" line.
Proof.
  rewrite !contains_char. unfold nl. now rewrite lacks_remove by discriminate.
Qed.

Lemma split_line_constant line :
  contains "=" line = true -> split_line line = Ok (None, None).
Proof.
  intros H. unfold split_line. rewrite contains_eq_remove_nl, H.
  now rewrite orb_true_r.
Qed.

(** ** Lines that hold one token after the bracket substitution *)


Lemma split_line_single_token t :
  unscoped_type t = true -> split_line t = Ok (Some t, None).
Proof.
  intros Ht. apply unscoped_type_inv in Ht as [Hte Ht].
  assert (St : nospace t = true) by chars.
  assert (L1 : lacks LF t = true) by chars.
  assert (L2 : lacks "=" t = true) by chars.
  assert (L3 : lacks "#" t = true) by chars.
  assert (Hb : all_chars is_space t = false).
  { rewrite <- (append_nil_r t). now apply not_blank_token. }
  rewrite (split_line_plain_single t L1 L2 L3 Hb t).
  - rewrite (replace_lacks "/" "" "/msg/" t) by chars.
    now rewrite strip_nospace.
  - rewrite re_sub_lacks_open by chars. now apply split_maxsplit1_single.
Qed.


(** * The builders as sections of field lines *)

Lemma for_each_app {S : Type} (body : S -> string -> exc S) a b st :
  for_each body st (a ++ b) = (st' <- for_each body st a ;; for_each body st' b).
Proof.
  revert st. induction a as [|l a IH]; intros st; [reflexivity|].
  cbn [for_each app]. destruct (body st l); [apply IH | reflexivity].
Qed.

Lemma for_each_ext {S : Type} (f g : S -> string -> exc S) st ls :
  (forall s l, f s l = g s l) -> for_each f st ls = for_each g st ls.
Proof.
  intros H. revert st. induction ls as [|l ls IH]; intros st; [reflexivity|].
  cbn [for_each]. rewrite H. destruct (g st l); [apply IH | reflexivity].
Qed.

Lemma for_each_invariant {S : Type} (P : S -> Prop)
  (body : S -> string -> exc S) ls :
  (forall st l st', body st l = Ok st' -> P st -> P st') ->
  forall st st', P st -> for_each body st ls = Ok st' -> P st'.
Proof.
  intros Hb. induction ls as [|l ls IH]; intros st st' Hst E.
  - injection E as <-. exact Hst.
  - cbn [for_each] in E. destruct (body st l) as [st1|] eqn:E1; [|discriminate E].
    cbn [bind] in E. exact (IH _ _ (Hb _ _ _ E1 Hst) E).
Qed.

Lemma field_body_total pkg d l : exists d', field_body pkg d l = Ok d'.
Proof.
  unfold field_body. destruct (get_type_format_total l pkg) as [[v [ty|]] E];
    rewrite E; cbn [bind]; eauto.
Qed.

Lemma section_fields_total pkg ls : forall d, exists d', section_fields pkg ls d = Ok d'.
Proof.
  unfold section_fields. induction ls as [|l ls IH]; intros d; [cbn; eauto|].
  cbn [for_each]. destruct (field_body_total pkg d l) as [d1 E]. rewrite E.
  cbn [bind]. apply IH.
Qed.

Lemma section_fields_cons pkg l ls d :
  section_fields pkg (l :: ls) d
  = (d' <- field_body pkg d l ;; section_fields pkg ls d').
Proof. reflexivity. Qed.

(** ** The message builder *)

Lemma split_line_remove_nl line :
  split_line (replace nl "" line) = split_line line.
Proof. unfold split_line, nl. now rewrite remove_idem. Qed.

(** The line feed that ends a line read from a file changes nothing. *)
Lemma split_line_trailing_nl line : split_line (line ++ nl) = split_line line.
Proof. unfold split_line, nl. now rewrite remove_trailing. Qed.

Lemma get_type_format_trailing_nl line pkg :
  get_type_format (line ++ nl) pkg = get_type_format line pkg.
Proof. unfold get_type_format. now rewrite split_line_trailing_nl. Qed.

Lemma split_line_empty line :
  replace nl "" line = "" -> split_line line = Ok (None, None).
Proof. intros H. unfold split_line. now rewrite H. Qed.

Lemma msg_body_field_body pkg d l : msg_body pkg d l = field_body pkg d l.
Proof.
  unfold msg_body, field_body. destruct (contains "=" l) eqn:E.
  - now rewrite (get_type_format_none _ _ (split_line_constant _ E)).
  - destruct (String.length (replace nl "" l) =? 0)%nat eqn:El.
    + assert (H : replace nl "" l = "").
      { destruct (replace nl "" l); [reflexivity | discriminate El]. }
      now rewrite (get_type_format_none _ _ (split_line_empty _ H)).
    + unfold get_type_format. now rewrite split_line_remove_nl.
Qed.

Lemma msg_loop pkg ls d :
  for_each (msg_body pkg) d ls = section_fields pkg ls d.
Proof. apply for_each_ext, msg_body_field_body. Qed.

(** ** The service builder *)

Lemma srv_body_separator pkg resp rq rs l :
  is_separator l = true -> srv_body pkg (resp, rq, rs) l = Ok (true, rq, rs).
Proof. unfold is_separator, srv_body. now intros ->. Qed.

Lemma srv_body_field pkg resp rq rs l :
  is_separator l = false ->
  srv_body pkg (resp, rq, rs) l
  = (d <- field_body pkg (if resp then rs else rq) l ;;
     Ok (if resp then (resp, rq, d) else (resp, d, rs))).
Proof.
  unfold is_separator, srv_body, field_body. intros ->.
  destruct (get_type_format l pkg) as [[v [ty|]]|]; cbn [bind];
    now destruct resp.
Qed.

Lemma srv_loop_response pkg ls : forall rq rs,
  for_each (srv_body pkg) (true, rq, rs) ls
  = (rs' <- section_fields pkg
              (filter (fun l => negb (is_separator l)) ls) rs ;;
     Ok (true, rq, rs')).
Proof.
  induction ls as [|l ls IH]; intros rq rs; [reflexivity|].
  cbn [for_each filter]. destruct (is_separator l) eqn:E; cbn [negb].
  - rewrite (srv_body_separator _ _ _ _ _ E). cbn [bind]. apply IH.
  - rewrite (srv_body_field _ _ _ _ _ E), section_fields_cons.
    destruct (field_body pkg rs l); cbn [bind]; [apply IH | reflexivity].
Qed.

Lemma srv_loop_request pkg ls : forall rq rs,
  for_each (srv_body pkg) (false, rq, rs) ls
  = (rq' <- section_fields pkg (request_lines ls) rq ;;
     rs' <- section_fields pkg (response_lines ls) rs ;;
     Ok (existsb is_separator ls, rq', rs')).
Proof.
  induction ls as [|l ls IH]; intros rq rs; [reflexivity|].
  cbn [for_each request_lines response_lines existsb].
  destruct (is_separator l) eqn:E.
  - rewrite (srv_body_separator _ _ _ _ _ E). cbn [bind orb].
    rewrite srv_loop_response. reflexivity.
  - rewrite (srv_body_field _ _ _ _ _ E), section_fields_cons.
    destruct (field_body pkg rq l); cbn [bind orb]; [apply IH | reflexivity].
Qed.

Lemma process_srv_file_sections f pkg :
  process_srv_file f pkg
  = (rq <- section_fields pkg (request_lines (lines f)) [] ;;
     rs <- section_fields pkg (response_lines (lines f)) [] ;;
     Ok (stem f, rq, rs)).
Proof.
  unfold process_srv_file. rewrite srv_loop_request.
  destruct (section_fields pkg (request_lines (lines f)) []); [|reflexivity].
  cbn [bind].
  destruct (section_fields pkg (response_lines (lines f)) []); reflexivity.
Qed.

(** ** The action builder *)

Lemma action_body_separator pkg b g r f l :
  is_separator l = true ->
  action_body pkg (b, g, r, f) l = Ok (b + 1, g, r, f).
Proof. unfold is_separator, action_body. now intros ->. Qed.

Lemma action_body_field pkg b g r f l v ty :
  is_separator l = false -> get_type_format l pkg = Ok (v, ty) ->
  action_body pkg (b, g, r, f) l
  = Ok match ty with
       | None => (b, g, r, f)
       | Some t =>
           (b, if (b =? 0)%nat then dict_set v t g else g,
            if (b =? 1)%nat then dict_set v t r else r,
            if (b =? 2)%nat then dict_set v t f else f)
       end.
Proof.
  unfold is_separator, action_body. intros -> ->. now destruct ty.
Qed.

Lemma action_loop pkg ls : forall b g r f,
  exists g' r' f',
    section_fields pkg (lines_at 0 b ls) g = Ok g' /\
    section_fields pkg (lines_at 1 b ls) r = Ok r' /\
    section_fields pkg (lines_at 2 b ls) f = Ok f' /\
    for_each (action_body pkg) (b, g, r, f) ls
    = Ok (b + count_separators ls, g', r', f').
Proof.
  unfold count_separators.
  induction ls as [|l ls IH]; intros b g r f.
  - exists g, r, f. cbn. now rewrite Nat.add_0_r.
  - cbn [lines_at for_each filter]. destruct (is_separator l) eqn:E.
    + rewrite (action_body_separator _ _ _ _ _ _ E). cbn [bind List.length].
      destruct (IH (b + 1) g r f) as (g' & r' & f' & Hg & Hr & Hf & Hl).
      exists g', r', f'. repeat split; try assumption.
      rewrite Hl. do 4 f_equal. lia.
    + destruct (get_type_format_total l pkg) as [[v ty] Et].
      rewrite (action_body_field _ _ _ _ _ _ _ _ E Et).
      assert (Hfb : forall d, field_body pkg d l
                = Ok match ty with Some t => dict_set v t d | None => d end).
      { intros d. unfold field_body. rewrite Et. now destruct ty. }
      cbn [bind]. destruct ty as [ty|].
      * destruct (IH b (if (b =? 0)%nat then dict_set v ty g else g)
                       (if (b =? 1)%nat then dict_set v ty r else r)
                       (if (b =? 2)%nat then dict_set v ty f else f))
          as (g' & r' & f' & Hg & Hr & Hf & Hl).
        exists g', r', f'. cbn [bind]. rewrite Hl.
        destruct (b =? 0)%nat, (b =? 1)%nat, (b =? 2)%nat;
          rewrite ?section_fields_cons, ?Hfb; cbn [bind]; auto.
      * destruct (IH b g r f) as (g' & r' & f' & Hg & Hr & Hf & Hl).
        exists g', r', f'. rewrite Hl.
        destruct (b =? 0)%nat, (b =? 1)%nat, (b =? 2)%nat;
          rewrite ?section_fields_cons, ?Hfb; cbn [bind]; auto.
Qed.

Lemma process_action_file_sections f pkg :
  process_action_file f pkg
  = (g <- section_fields pkg (lines_at 0 0 (lines f)) [] ;;
     r <- section_fields pkg (lines_at 1 0 (lines f)) [] ;;
     fb <- section_fields pkg (lines_at 2 0 (lines f)) [] ;;
     Ok (stem f, g, r, fb)).
Proof.
  unfold process_action_file.
  destruct (action_loop pkg (lines f) 0 [] [] [])
    as (g & r & fb & Hg & Hr & Hf & Hl).
  unfold dict in *. now rewrite Hl, Hg, Hr, Hf.
Qed.

(** Once the counter is past [k], section [k] takes no more lines. *)
Lemma lines_at_past k ls : forall b, k < b -> lines_at k b ls = [].
Proof.
  induction ls as [|l ls IH]; intros b Hb; [reflexivity|].
  cbn [lines_at]. destruct (is_separator l); [apply IH; lia|].
  destruct (Nat.eqb_spec b k); [lia | now apply IH].
Qed.

(** A run of lines without separator belongs to the current section. *)
Lemma lines_at_run k b run rest :
  forallb (fun l => negb (is_separator l)) run = true ->
  lines_at k b (run ++ rest)
  = ((if (b =? k)%nat then run else []) ++ lines_at k b rest)%list.
Proof.
  induction run as [|l run IH]; intros H.
  - now destruct (b =? k)%nat.
  - cbn [forallb] in H. apply andb_true_iff in H as [Hl Hrun].
    apply negb_true_iff in Hl. cbn [app lines_at]. rewrite Hl, (IH Hrun).
    now destruct (b =? k)%nat.
Qed.

Lemma lines_at_separator k b l rest :
  is_separator l = true -> lines_at k b (l :: rest) = lines_at k (b + 1) rest.
Proof. cbn [lines_at]. now intros ->. Qed.

(** * Dictionaries *)

Lemma key_eqb_spec a b : reflect (a = b) (key_eqb a b).
Proof.
  destruct a as [x|], b as [y|]; cbn; try (constructor; congruence).
  destruct (String.eqb_spec x y); constructor; congruence.
Qed.

Lemma dict_get_set_eq k v d : dict_get k (dict_set k v d) = Some v.
Proof.
  induction d as [|[k' v'] d IH]; cbn [dict_set dict_get].
  - now destruct (key_eqb_spec k k).
  - destruct (key_eqb_spec k k') as [<-|Hn]; cbn [dict_get].
    + now destruct (key_eqb_spec k k).
    + now destruct (key_eqb_spec k k').
Qed.

Lemma dict_get_set_neq k k' v d :
  k <> k' -> dict_get k (dict_set k' v d) = dict_get k d.
Proof.
  intros Hn. induction d as [|[k1 v1] d IH]; cbn [dict_set dict_get].
  - now destruct (key_eqb_spec k k').
  - destruct (key_eqb_spec k' k1) as [<-|Hn1]; cbn [dict_get].
    + now destruct (key_eqb_spec k k').
    + now rewrite IH.
Qed.

Lemma keys_dict_set_in k v d :
  In k (keys d) -> keys (dict_set k v d) = keys d.
Proof.
  unfold keys. induction d as [|[k' v'] d IH]; [intros []|].
  cbn [dict_set map fst In]. intros H.
  destruct (key_eqb_spec k k') as [<-|Hn]; [reflexivity|].
  cbn [map fst]. f_equal. apply IH. destruct H; congruence.
Qed.

Lemma keys_dict_set_new k v d :
  ~ In k (keys d) -> keys (dict_set k v d) = (keys d ++ [k])%list.
Proof.
  unfold keys. induction d as [|[k' v'] d IH]; [reflexivity|].
  cbn [dict_set map fst In]. intros H.
  destruct (key_eqb_spec k k') as [<-|Hn]; [tauto|].
  cbn [map fst app]. f_equal. apply IH. tauto.
Qed.

Lemma NoDup_dict_set k v d :
  NoDup (keys d) -> NoDup (keys (dict_set k v d)).
Proof.
  intros H. destruct (in_dec (fun a b => reflect_dec _ _ (key_eqb_spec a b))
                        k (keys d)) as [Hi|Hi].
  - now rewrite keys_dict_set_in.
  - rewrite keys_dict_set_new by exact Hi.
    apply NoDup_app; [exact H | repeat constructor; intros [] | ].
    intros x Hx [<-|[]]. contradiction.
Qed.

Lemma section_fields_NoDup pkg ls d d' :
  NoDup (keys d) -> section_fields pkg ls d = Ok d' -> NoDup (keys d').
Proof.
  apply (for_each_invariant (fun d => NoDup (keys d))).
  intros st l st' E Hst. unfold field_body in E.
  destruct (get_type_format l pkg) as [[v [ty|]]|]; cbn [bind] in E;
    try discriminate E; injection E as <-; [now apply NoDup_dict_set | exact Hst].
Qed.

(** A line that does not write the key [x] leaves its entry alone. *)
Lemma field_body_other pkg x l d d' :
  (forall ty, get_type_format l pkg <> Ok (x, Some ty)) ->
  field_body pkg d l = Ok d' -> dict_get x d' = dict_get x d.
Proof.
  intros Hx E. unfold field_body in E.
  destruct (get_type_format l pkg) as [[v [ty|]]|]; cbn [bind] in E;
    try discriminate E; injection E as <-; [|reflexivity].
  apply dict_get_set_neq. intros ->. now apply (Hx ty).
Qed.

Lemma section_fields_last_write pkg pre late post x ty d :
  get_type_format late pkg = Ok (x, Some ty) ->
  Forall (fun l => forall ty', get_type_format l pkg <> Ok (x, Some ty')) post ->
  section_fields pkg (pre ++ late :: post) [] = Ok d ->
  dict_get x d = Some ty.
Proof.
  intros Hl Hpost E. unfold section_fields in E. rewrite for_each_app in E.
  destruct (for_each (field_body pkg) [] pre) as [d1|]; [|discriminate E].
  cbn [bind for_each] in E. unfold field_body at 1 in E. rewrite Hl in E.
  cbn [bind] in E. revert E.
  generalize (dict_get_set_eq x ty d1). generalize (dict_set x ty d1).
  induction Hpost as [|l post Hx _ IH]; intros d2 Hd2 E.
  - now injection E as <-.
  - cbn [for_each] in E.
    destruct (field_body pkg d2 l) as [d3|] eqn:E3; [|discriminate E].
    cbn [bind] in E. apply (IH d3); [|exact E].
    now rewrite (field_body_other _ _ _ _ _ Hx E3).
Qed.

(** * The topic-name fixer *)

Lemma fix_topic_names_loop_slash node topics : forall acc,
  startswith node "/" = true ->
  fix_topic_names_loop node topics acc
  = (acc ++ map (fun t => mkTopicInfo (replace node "~" (topic_name t))
                            (types t)) topics)%list.
Proof.
  induction topics as [|t topics IH]; intros acc H.
  - cbn. now rewrite app_nil_r.
  - cbn [fix_topic_names_loop map]. rewrite H. cbn [negb].
    rewrite (IH _ H), <- app_assoc. reflexivity.
Qed.

(** * The claims *)

(** C1, evaluated on the code: the field line [Foo bar], whose type token
    is compound, unscoped and carries no array annotation, resolves
    against [pkgX] to ['pkgX/msg/Foo'[]]; the array suffix is appended
    although the token had none. *)
Theorem C1_unannotated_compound_gets_suffix :
  get_type_format "Foo bar" "pkgX" = Ok (Some "bar", Some "'pkgX/msg/Foo'[]").
Proof. vm_compute. reflexivity. Qed.

(** C2, counterexample: [time[]] is not in the primitive set, and the field
    line [time[] stamps] comes back quoted and package-qualified, not
    unchanged. *)
Lemma C2_time_array_is_not_primitive :
  In "time" primitive_names /\
  str_in "time[]" primitive_types = false /\
  get_type_format "time[] stamps" "pkgX"
  = Ok (Some "stamps", Some "'pkgX/msg/time'[]") /\
  get_type_format "time[] stamps" "pkgX" <> Ok (Some "stamps", Some "time[]").
Proof.
  split; [cbn; tauto|]. split; [reflexivity|].
  split; [vm_compute; reflexivity | vm_compute; discriminate].
Qed.

(** C2, amended: every one of the sixteen primitive names [P] is returned
    unchanged for a field line [P NAME], and for the thirteen names from
    [bool] to [byte] the array form [P[ann] NAME] is returned as [P[]],
    with no quote and no package prefix.  The array forms of [time],
    [duration] and [Header] are not in the closed set and are not
    returned unchanged; the closed set holds the sixteen names and the
    thirteen array forms, and nothing else. *)
Theorem C2_primitives_unchanged (P a n pkg : string) :
  field_name n = true -> annotation a = true ->
  (In P primitive_names ->
   str_in P primitive_types = true /\
   get_type_format (P ++ " " ++ n) pkg = Ok (Some n, Some P)) /\
  (In P array_primitive_names ->
   str_in (P ++ "[]") primitive_types = true /\
   get_type_format (P ++ "[" ++ a ++ "]" ++ " " ++ n) pkg
   = Ok (Some n, Some (P ++ "[]"))) /\
  (In P ["time"; "duration"; "Header"] ->
   str_in (P ++ "[]") primitive_types = false /\
   get_type_format (P ++ "[" ++ a ++ "]" ++ " " ++ n) pkg
   <> Ok (Some n, Some (P ++ "[]")) /\
   (contains "[]" pkg = false ->
    get_type_format (P ++ "[" ++ a ++ "]" ++ " " ++ n) pkg
    = Ok (Some n, Some ("'" ++ pkg ++ "/msg/" ++ P ++ "'[]")))) /\
  (forall x,
      str_in x primitive_types = true <->
      In x (primitive_names
            ++ map (fun Q => (Q ++ "[]")%string) array_primitive_names)%list).
Proof.
  intros Hn Ha. split; [|split; [|split]].
  - intros HP.
    assert (H : unscoped_type P = true /\ str_in P primitive_types = true).
    { cbn in HP. repeat (destruct HP as [<-|HP]; [now split|]). destruct HP. }
    destruct H as [Ht Hp]. split; [exact Hp|].
    exact (get_type_format_primitive _ pkg P (Some n)
             (split_line_scalar_field P n Ht Hn) Hp).
  - intros HP.
    assert (H : unscoped_type P = true
                /\ str_in (P ++ "[]") primitive_types = true).
    { cbn in HP. repeat (destruct HP as [<-|HP]; [now split|]). destruct HP. }
    destruct H as [Ht Hp]. split; [exact Hp|].
    exact (get_type_format_primitive _ pkg (P ++ "[]") (Some n)
             (split_line_array_field P a n Ht Ha Hn) Hp).
  - intros HP.
    assert (H : unscoped_type P = true
                /\ str_in (P ++ "[]") primitive_types = false
                /\ exists c r, P = String c r /\ c <> "'"%char).
    { cbn in HP.
      repeat (destruct HP as [<-|HP];
              [split; [reflexivity | split; [reflexivity|]];
               do 2 eexists; split; [reflexivity | discriminate]|]).
      destruct HP. }
    destruct H as (Ht & Hp & c & r & EP & Hc). split; [exact Hp|]. split.
    + assert (Hs : contains "/" (P ++ "[]") = false).
      { apply unscoped_type_inv in Ht as [_ Ht]. apply contains_lacks. chars. }
      rewrite (get_type_format_unscoped _ pkg (P ++ "[]") (Some n)
                 (split_line_array_field P a n Ht Ha Hn) Hp Hs).
      rewrite (replace_app_lacks "[" "]" "" "'") by reflexivity.
      rewrite EP. intros E. injection E as E _. congruence.
    + intros Hpkg. now apply get_type_format_compound_array.
  - intros x. split.
    + unfold str_in. cbn [existsb primitive_types]. intros H.
      repeat (apply orb_true_iff in H as [H|H];
              [apply String.eqb_eq in H; subst x; cbn; tauto|]).
      discriminate H.
    + intros H. cbn in H.
      repeat (destruct H as [<-|H]; [reflexivity|]). destruct H.
Qed.

Lemma C2_primitives_unchanged_witness :
  get_type_format ("int32" ++ " " ++ "x") "pkgX" = Ok (Some "x", Some "int32")
  /\ get_type_format ("int32" ++ "[" ++ "<5" ++ "]" ++ " " ++ "x") "pkgX"
     = Ok (Some "x", Some ("int32" ++ "[]")).
Proof.
  destruct (C2_primitives_unchanged "int32" "<5" "x" "pkgX" eq_refl eq_refl)
    as (H1 & H2 & _ & _).
  split.
  - apply H1. cbn. tauto.
  - apply H2. cbn. tauto.
Defined.

(** C3, evaluated on the code: the line [int32] has a type token and no
    name token; the tokenizer returns it with [None] as name, and each
    builder stores the type under the key [None]. *)
Theorem C3_incomplete_line_is_stored :
  split_line ("int32" ++ nl) = Ok (Some "int32", None) /\
  process_msg_file (mkSpecFile "M" ["int32" ++ nl]) "pkgX"
  = Ok ("M", [(None, "int32")]) /\
  process_srv_file (mkSpecFile "S" ["int32" ++ nl]) "pkgX"
  = Ok ("S", [(None, "int32")], []) /\
  process_action_file (mkSpecFile "A" ["int32" ++ nl]) "pkgX"
  = Ok ("A", [(None, "int32")], [], []).
Proof. repeat split; vm_compute; reflexivity. Qed.

(** C4, counterexample: the line [int32 a # ---] does not consist of a
    separator marker and is a field line for [a], yet the service builder
    takes it for a separator: it stores nothing for it and the next field
    lands in the response. *)
Lemma C4_dashes_in_comment_switch_section :
  separator_marker ("int32 a # ---" ++ nl) = false /\
  field_body "pkgX" [] ("int32 a # ---" ++ nl) = Ok [(Some "a", "int32")] /\
  process_srv_file
    (mkSpecFile "S" ["int32 a # ---" ++ nl; "string b" ++ nl]) "pkgX"
  = Ok ("S", [], [(Some "b", "string")]) /\
  process_srv_file
    (mkSpecFile "S" ["int32 a # ---" ++ nl; "string b" ++ nl]) "pkgX"
  <> Ok ("S", [(Some "a", "int32"); (Some "b", "string")], []).
Proof.
  repeat split; try (vm_compute; reflexivity). vm_compute. discriminate.
Qed.

(** C4, amended: in the service builder exactly the lines that contain
    three consecutive dash characters anywhere switch to the response and
    contribute no field; every other line is processed as a field line
    for the section active when it is read.  The lines [int32 a], [---],
    [string b] give request [{a: int32}] and response [{b: string}] under
    the file's stem. *)
Theorem C4_separator_is_a_substring_test pkg resp rq rs l name :
  srv_body pkg (resp, rq, rs) l
  = (if contains "---" l then Ok (true, rq, rs)
     else d <- field_body pkg (if resp then rs else rq) l ;;
          Ok (if resp then (resp, rq, d) else (resp, d, rs)))
  /\ process_srv_file
       (mkSpecFile name ["int32 a" ++ nl; "---" ++ nl; "string b" ++ nl]) pkg
     = Ok (name, [(Some "a", "int32")], [(Some "b", "string")]).
Proof.
  split; [|vm_compute; reflexivity].
  destruct (contains "---" l) eqn:E.
  - now apply srv_body_separator.
  - now apply srv_body_field.
Qed.

(** C5: for an unscoped compound type [T], a field line [T[ann] NAME]
    resolved against a package [pkgX] that holds no ["[]"] gives
    ['pkgX/msg/T'[]], the suffix after the closing quote, and not
    ['pkgX/msg/T[]']. *)
Theorem C5_array_suffix_follows_quote (pkg t a n : string) :
  unscoped_type t = true -> annotation a = true -> field_name n = true ->
  str_in (t ++ "[]") primitive_types = false ->
  contains "[]" pkg = false ->
  get_type_format (t ++ "[" ++ a ++ "]" ++ " " ++ n) pkg
  = Ok (Some n, Some ("'" ++ pkg ++ "/msg/" ++ t ++ "'[]")) /\
  get_type_format (t ++ "[" ++ a ++ "]" ++ " " ++ n) pkg
  <> Ok (Some n, Some ("'" ++ pkg ++ "/msg/" ++ t ++ "[]'")).
Proof.
  intros Ht Ha Hn Hc Hp.
  rewrite (get_type_format_compound_array pkg t a n Ht Ha Hn Hc Hp).
  split; [reflexivity|]. intros E. injection E as E.
  apply append_inv_head in E. injection E as E.
  apply append_inv_head in E. discriminate E.
Qed.

Lemma C5_array_suffix_follows_quote_witness :
  get_type_format ("Foo" ++ "[" ++ "" ++ "]" ++ " " ++ "items") "pkgX"
  = Ok (Some "items", Some ("'" ++ "pkgX" ++ "/msg/" ++ "Foo" ++ "'[]")) /\
  get_type_format ("Foo" ++ "[" ++ "" ++ "]" ++ " " ++ "items") "pkgX"
  <> Ok (Some "items", Some ("'" ++ "pkgX" ++ "/msg/" ++ "Foo" ++ "[]'")).
Proof.
  apply (C5_array_suffix_follows_quote "pkgX" "Foo" "" "items"); reflexivity.
Defined.

Lemma dict_set_new k v d :
  ~ In k (keys d) -> dict_set k v d = (d ++ [(k, v)])%list.
Proof.
  unfold keys. induction d as [|[k' v'] d IH]; [reflexivity|].
  cbn [map fst In dict_set app]. intros H.
  destruct (key_eqb_spec k k') as [<-|Hn]; [tauto|].
  f_equal. apply IH. tauto.
Qed.

Lemma get_type_format_field pkg t n :
  unscoped_type t = true -> field_name n = true ->
  contains "[]" pkg = false ->
  get_type_format (field_line (t, n)) pkg
  = Ok (Some n, Some (resolved_type pkg t)).
Proof.
  intros Ht Hn Hp. unfold field_line, resolved_type. cbn [fst snd].
  rewrite <- (append_assoc " " n nl), <- (append_assoc t (" " ++ n) nl).
  rewrite get_type_format_trailing_nl.
  destruct (str_in t primitive_types) eqn:E.
  - exact (get_type_format_primitive _ pkg t (Some n)
             (split_line_scalar_field t n Ht Hn) E).
  - now apply get_type_format_compound_scalar.
Qed.

Lemma section_fields_rendered pkg fields : forall d,
  contains "[]" pkg = false ->
  forallb (fun f => unscoped_type (fst f) && field_name (snd f)) fields = true ->
  NoDup (map snd fields) ->
  (forall f, In f fields -> ~ In (Some (snd f)) (keys d)) ->
  section_fields pkg (map field_line fields) d
  = Ok (d ++ map (field_entry pkg) fields)%list.
Proof.
  induction fields as [|[t n] fields IH]; intros d Hp Hw Hn Hd.
  - cbn. now rewrite app_nil_r.
  - cbn [forallb fst snd] in Hw. apply andb_true_iff in Hw as [Hf Hw].
    apply andb_true_iff in Hf as [Ht Hnm]. cbn [map snd] in Hn.
    apply NoDup_cons_iff in Hn as [Hnew Hn].
    cbn [map]. rewrite section_fields_cons. unfold field_body.
    rewrite (get_type_format_field pkg t n Ht Hnm Hp). cbn [bind].
    rewrite dict_set_new by (apply (Hd (t, n)); now left).
    rewrite (IH _ Hp Hw Hn).
    + now rewrite <- app_assoc.
    + intros f Hin. unfold keys. rewrite map_app, in_app_iff. cbn [map fst In].
      intros [H|[H|[]]].
      * apply (Hd f); [now right | exact H].
      * injection H as H. apply Hnew. rewrite H. now apply in_map.
Qed.

Lemma count_separators_run run rest :
  forallb (fun l => negb (is_separator l)) run = true ->
  count_separators (run ++ rest) = count_separators rest.
Proof.
  unfold count_separators. induction run as [|l run IH]; intros H; [reflexivity|].
  cbn [forallb] in H. apply andb_true_iff in H as [Hl Hrun].
  apply negb_true_iff in Hl. cbn [app filter]. rewrite Hl. now apply IH.
Qed.

Lemma count_separators_cons l rest :
  is_separator l = true ->
  count_separators (l :: rest) = S (count_separators rest).
Proof. unfold count_separators. cbn [filter]. now intros ->. Qed.

(** The action builder on a file cut at its separator lines. *)
Lemma action_file_by_sections pkg name s0 s1 s2 sep1 sep2 tail :
  forallb (fun l => negb (is_separator l)) s0 = true ->
  forallb (fun l => negb (is_separator l)) s1 = true ->
  forallb (fun l => negb (is_separator l)) s2 = true ->
  is_separator sep1 = true -> is_separator sep2 = true ->
  match tail with [] => true | sep3 :: _ => is_separator sep3 end = true ->
  exists g r fb,
    section_fields pkg s0 [] = Ok g /\
    section_fields pkg s1 [] = Ok r /\
    section_fields pkg s2 [] = Ok fb /\
    for_each (action_body pkg) (0, [], [], [])
      (s0 ++ sep1 :: s1 ++ sep2 :: s2 ++ tail)
    = Ok (2 + count_separators tail, g, r, fb) /\
    process_action_file
      (mkSpecFile name (s0 ++ sep1 :: s1 ++ sep2 :: s2 ++ tail)) pkg
    = Ok (name, g, r, fb).
Proof.
  intros H0 H1 H2 Hs1 Hs2 Ht.
  set (ls := (s0 ++ sep1 :: s1 ++ sep2 :: s2 ++ tail)%list).
  destruct (action_loop pkg ls 0 [] [] []) as (g & r & fb & Hg & Hr & Hf & Hl).
  assert (T2 : lines_at 2 2 tail = []).
  { destruct tail as [|sep3 rest]; [reflexivity|].
    rewrite (lines_at_separator _ _ _ _ Ht). apply lines_at_past. lia. }
  assert (E0 : lines_at 0 0 ls = s0).
  { subst ls. rewrite (lines_at_run _ _ _ _ H0), (lines_at_separator _ _ _ _ Hs1).
    rewrite lines_at_past by lia. cbn. apply app_nil_r. }
  assert (E1 : lines_at 1 0 ls = s1).
  { subst ls. rewrite (lines_at_run _ _ _ _ H0), (lines_at_separator _ _ _ _ Hs1).
    cbn [Nat.eqb app Nat.add].
    rewrite (lines_at_run _ _ _ _ H1), (lines_at_separator _ _ _ _ Hs2).
    rewrite lines_at_past by lia. cbn. apply app_nil_r. }
  assert (E2 : lines_at 2 0 ls = s2).
  { subst ls. rewrite (lines_at_run _ _ _ _ H0), (lines_at_separator _ _ _ _ Hs1).
    cbn [Nat.eqb app Nat.add].
    rewrite (lines_at_run _ _ _ _ H1), (lines_at_separator _ _ _ _ Hs2).
    cbn [Nat.eqb app Nat.add].
    rewrite (lines_at_run _ _ _ _ H2), T2. cbn. apply app_nil_r. }
  assert (Ec : count_separators ls = 2 + count_separators tail).
  { subst ls. rewrite (count_separators_run _ _ H0), (count_separators_cons _ _ Hs1).
    rewrite (count_separators_run _ _ H1), (count_separators_cons _ _ Hs2).
    now rewrite (count_separators_run _ _ H2). }
  rewrite E0 in Hg. rewrite E1 in Hr. rewrite E2 in Hf. rewrite Ec in Hl.
  exists g, r, fb. repeat split; try assumption.
  unfold process_action_file. cbn [stem lines]. fold ls.
  unfold dict in *. now rewrite Hl.
Qed.

Lemma lines_at_app k pre post : forall b,
  lines_at k b (pre ++ post)
  = (lines_at k b pre ++ lines_at k (b + count_separators pre) post)%list.
Proof.
  unfold count_separators.
  induction pre as [|l pre IH]; intros b.
  - cbn. now rewrite Nat.add_0_r.
  - cbn [app lines_at filter]. destruct (is_separator l).
    + rewrite IH. cbn [List.length]. do 2 f_equal. lia.
    + destruct (b =? k)%nat; now rewrite IH.
Qed.

Lemma forallb_field_lines (fields : list (string * string)) :
  forallb (fun f => negb (is_separator (field_line f))) fields
  = forallb (fun l => negb (is_separator l)) (map field_line fields).
Proof.
  induction fields as [|f fields IH]; [reflexivity|].
  cbn [forallb map]. now rewrite IH.
Qed.

Lemma section_fields_declares pkg fields :
  contains "[]" pkg = false -> declares fields ->
  section_fields pkg (map field_line fields) []
  = Ok (map (field_entry pkg) fields).
Proof.
  intros Hp (Hw & Hn & _).
  rewrite (section_fields_rendered pkg fields [] Hp Hw Hn); [reflexivity|].
  intros f _ [].
Qed.

(** C6, counterexample: the comment line [# ---- goal ----] does not
    consist of a separator marker, yet it moves the counter: the field of
    the goal lands in result, the field of the result in feedback, and
    the field of the feedback is dropped. *)
Lemma C6_dashes_in_comment_shift_sections :
  separator_marker ("# ---- goal ----" ++ nl) = false /\
  split_line ("# ---- goal ----" ++ nl) = Ok (None, None) /\
  process_action_file
    (mkSpecFile "Fibonacci"
       ["# ---- goal ----" ++ nl; "int32 g" ++ nl; "---" ++ nl;
        "int32 r" ++ nl; "---" ++ nl; "int32 f" ++ nl]) "pkgX"
  = Ok ("Fibonacci", [], [(Some "g", "int32")], [(Some "r", "int32")]) /\
  process_action_file
    (mkSpecFile "Fibonacci"
       ["# ---- goal ----" ++ nl; "int32 g" ++ nl; "---" ++ nl;
        "int32 r" ++ nl; "---" ++ nl; "int32 f" ++ nl]) "pkgX"
  <> Ok ("Fibonacci", [(Some "g", "int32")], [(Some "r", "int32")],
         [(Some "f", "int32")]).
Proof.
  repeat split; try (vm_compute; reflexivity). vm_compute. discriminate.
Qed.

(** C6, amended: in the action builder the section counter starts at 0
    and grows by one on each line that holds three dashes in a row
    anywhere; such a line stores nothing.  Any other line is stored in
    goal, result or feedback when the counter is 0, 1 or 2, and in no map
    once the counter exceeds 2.  So the declarations read before the
    first such line, between the first and the second, and between the
    second and the third are exactly the fields of goal, result and
    feedback, and whatever follows the third changes none of the three
    maps.  The lines [int32 g], [---], [int32 r], [---], [int32 f] give
    goal [{g: int32}], result [{r: int32}], feedback [{f: int32}], and
    the fields of a fourth section are in none of them. *)
Theorem C6_counter_selects_the_map pkg :
  (* one line *)
  (forall b g r fb l,
      action_body pkg (b, g, r, fb) l
      = if contains "---" l then Ok (b + 1, g, r, fb)
        else match b with
             | 0 => d <- field_body pkg g l ;; Ok (b, d, r, fb)
             | 1 => d <- field_body pkg r l ;; Ok (b, g, d, fb)
             | 2 => d <- field_body pkg fb l ;; Ok (b, g, r, d)
             | _ => Ok (b, g, r, fb)
             end) /\
  (* the counter and the maps after any file *)
  (forall ls,
      exists g r fb,
        for_each (action_body pkg) (0, [], [], []) ls
        = Ok (count_separators ls, g, r, fb) /\
        section_fields pkg (lines_at 0 0 ls) [] = Ok g /\
        section_fields pkg (lines_at 1 0 ls) [] = Ok r /\
        section_fields pkg (lines_at 2 0 ls) [] = Ok fb) /\
  (* after the third separator nothing is stored *)
  (forall name pre post,
      3 <= count_separators pre ->
      process_action_file (mkSpecFile name (pre ++ post)) pkg
      = process_action_file (mkSpecFile name pre) pkg) /\
  (* the fields of the three sections *)
  (forall name F0 F1 F2 sep1 sep2 tail,
      contains "[]" pkg = false ->
      declares F0 -> declares F1 -> declares F2 ->
      is_separator sep1 = true -> is_separator sep2 = true ->
      match tail with [] => true | sep3 :: _ => is_separator sep3 end = true ->
      process_action_file
        (mkSpecFile name
           (map field_line F0 ++ sep1 :: map field_line F1
            ++ sep2 :: map field_line F2 ++ tail)) pkg
      = Ok (name, map (field_entry pkg) F0, map (field_entry pkg) F1,
            map (field_entry pkg) F2)) /\
  (* the example *)
  (forall name,
      process_action_file
        (mkSpecFile name
           ["int32 g" ++ nl; "---" ++ nl; "int32 r" ++ nl; "---" ++ nl;
            "int32 f" ++ nl; "---" ++ nl; "int32 late" ++ nl]) pkg
      = Ok (name, [(Some "g", "int32")], [(Some "r", "int32")],
            [(Some "f", "int32")])).
Proof.
  split; [|split; [|split; [|split]]].
  - intros b g r fb l. destruct (contains "---" l) eqn:E.
    + now apply action_body_separator.
    + destruct (get_type_format_total l pkg) as [[v ty] Et].
      rewrite (action_body_field _ _ _ _ _ _ _ _ E Et).
      unfold field_body. rewrite Et. cbn [bind].
      destruct ty as [ty|]; destruct b as [|[|[|b]]]; reflexivity.
  - intros ls.
    destruct (action_loop pkg ls 0 [] [] []) as (g & r & fb & Hg & Hr & Hf & Hl).
    exists g, r, fb. now repeat split.
  - intros name pre post H3. rewrite !process_action_file_sections.
    cbn [stem lines]. rewrite !lines_at_app.
    rewrite !(lines_at_past _ post) by lia. now rewrite !app_nil_r.
  - intros name F0 F1 F2 sep1 sep2 tail Hp D0 D1 D2 Hs1 Hs2 Ht.
    pose proof D0 as (_ & _ & N0). pose proof D1 as (_ & _ & N1).
    pose proof D2 as (_ & _ & N2). rewrite forallb_field_lines in N0, N1, N2.
    destruct (action_file_by_sections pkg name _ _ _ sep1 sep2 tail
                N0 N1 N2 Hs1 Hs2 Ht) as (g & r & fb & Hg & Hr & Hf & _ & E).
    rewrite (section_fields_declares pkg F0 Hp D0) in Hg.
    rewrite (section_fields_declares pkg F1 Hp D1) in Hr.
    rewrite (section_fields_declares pkg F2 Hp D2) in Hf.
    injection Hg as <-. injection Hr as <-. injection Hf as <-. exact E.
  - intros name. vm_compute. reflexivity.
Qed.

Lemma C6_counter_selects_the_map_witness :
  process_action_file
    (mkSpecFile "Fibonacci"
       (map field_line [("int32", "order")]
        ++ ("---" ++ nl) :: map field_line [("int64", "sequence")]
        ++ ("---" ++ nl) :: map field_line [("Step", "partial")]
        ++ ["---" ++ nl; "int32 late" ++ nl])) "pkgX"
  = Ok ("Fibonacci", map (field_entry "pkgX") [("int32", "order")],
        map (field_entry "pkgX") [("int64", "sequence")],
        map (field_entry "pkgX") [("Step", "partial")]) /\
  process_action_file
    (mkSpecFile "Fibonacci"
       (["a b" ++ nl; "---" ++ nl; "---" ++ nl; "---" ++ nl]
        ++ ["int32 late" ++ nl])) "pkgX"
  = process_action_file
      (mkSpecFile "Fibonacci"
         ["a b" ++ nl; "---" ++ nl; "---" ++ nl; "---" ++ nl]) "pkgX".
Proof.
  destruct (C6_counter_selects_the_map "pkgX") as (_ & _ & Hdrop & Hsec & _).
  split.
  - apply Hsec; try reflexivity;
      (split; [reflexivity | split; [|reflexivity]]);
      repeat constructor; cbn; tauto.
  - apply Hdrop. cbn. lia.
Defined.

(** C7: every FieldSet of the three builders is built by [section_fields]
    from the lines of its section; such a FieldSet holds one entry per
    name, and a name maps to the type of the last line that defines it. *)
Theorem C7_last_write_wins pkg :
  (forall f, process_msg_file f pkg
             = (m <- section_fields pkg (lines f) [] ;; Ok (stem f, m))) /\
  (forall f, process_srv_file f pkg
             = (rq <- section_fields pkg (request_lines (lines f)) [] ;;
                rs <- section_fields pkg (response_lines (lines f)) [] ;;
                Ok (stem f, rq, rs))) /\
  (forall f, process_action_file f pkg
             = (g <- section_fields pkg (lines_at 0 0 (lines f)) [] ;;
                r <- section_fields pkg (lines_at 1 0 (lines f)) [] ;;
                fb <- section_fields pkg (lines_at 2 0 (lines f)) [] ;;
                Ok (stem f, g, r, fb))) /\
  (forall ls d, section_fields pkg ls [] = Ok d -> NoDup (keys d)) /\
  (forall pre late post x ty d,
      get_type_format late pkg = Ok (x, Some ty) ->
      Forall (fun l => forall ty', get_type_format l pkg <> Ok (x, Some ty'))
        post ->
      section_fields pkg (pre ++ late :: post) [] = Ok d ->
      dict_get x d = Some ty).
Proof.
  split; [|split; [|split; [|split]]].
  - intros f. unfold process_msg_file. now rewrite msg_loop.
  - intros f. apply process_srv_file_sections.
  - intros f. apply process_action_file_sections.
  - intros ls d. apply section_fields_NoDup. constructor.
  - apply section_fields_last_write.
Qed.

Lemma C7_last_write_wins_witness :
  NoDup (keys [(Some "x", "string")]) /\
  dict_get (Some "x") [(Some "x", "string")] = Some "string".
Proof.
  destruct (C7_last_write_wins "pkgX") as (_ & _ & _ & Hu & Hw). split.
  - apply (Hu ["int32 x" ++ nl; "string x" ++ nl]). reflexivity.
  - apply (Hw ["int32 x" ++ nl] ("string x" ++ nl) [] (Some "x") "string");
      [reflexivity | constructor | reflexivity].
Defined.

(** C8, counterexample: the topic name [/b/n] is not prefixed with the node
    name [/n], yet it is not left unchanged. *)
Lemma C8_inner_occurrence_is_rewritten :
  startswith "/b/n" "/n" = false /\
  fix_topic_names "/n" [mkTopicInfo "/b/n" ["std_msgs/msg/String"]]
  = [mkTopicInfo "/b~" ["std_msgs/msg/String"]] /\
  fix_topic_names "/n" [mkTopicInfo "/b/n" ["std_msgs/msg/String"]]
  <> [mkTopicInfo "/b/n" ["std_msgs/msg/String"]].
Proof.
  split; [reflexivity|]. split; [vm_compute; reflexivity|].
  vm_compute. discriminate.
Qed.

(** C8, amended: for a node name that starts with a slash, the fixer
    returns one record per topic, in order, with every occurrence of the
    node name in the topic name replaced by a tilde and the type list
    carried over; so a name prefixed with the node name has that prefix
    rewritten, and a name that does not contain the node name is
    unchanged. *)
Theorem C8_node_name_replaced_everywhere node topics :
  startswith node "/" = true ->
  fix_topic_names node topics
  = map (fun t => mkTopicInfo (replace node "~" (topic_name t)) (types t))
      topics /\
  (forall rest, replace node "~" (node ++ rest)
                = "~" ++ replace node "~" rest) /\
  (forall name, contains node name = false -> replace node "~" name = name).
Proof.
  intros H.
  assert (Hne : node <> "") by (intros ->; discriminate H).
  split; [|split].
  - unfold fix_topic_names. now rewrite fix_topic_names_loop_slash.
  - intros rest. now apply replace_prefix.
  - intros name. now apply replace_not_contains.
Qed.

Lemma C8_node_name_replaced_everywhere_witness :
  fix_topic_names "/talker"
    [mkTopicInfo "/talker/chatter" ["std_msgs/msg/String"];
     mkTopicInfo "/rosout" ["rcl_interfaces/msg/Log"]]
  = [mkTopicInfo "~/chatter" ["std_msgs/msg/String"];
     mkTopicInfo "/rosout" ["rcl_interfaces/msg/Log"]].
Proof.
  destruct (C8_node_name_replaced_everywhere "/talker"
              [mkTopicInfo "/talker/chatter" ["std_msgs/msg/String"];
               mkTopicInfo "/rosout" ["rcl_interfaces/msg/Log"]] eq_refl)
    as (E & _ & _).
  rewrite E. reflexivity.
Defined.

(** C9: a line that holds an equals sign anywhere, also inside a trailing
    comment, tokenizes to [(None, None)], resolves to no type and leaves
    every FieldSet of every builder as it was. *)
Theorem C9_equals_sign_drops_the_line line pkg :
  contains "=" line = true ->
  split_line line = Ok (None, None) /\
  get_type_format line pkg = Ok (None, None) /\
  (forall m, msg_body pkg m line = Ok m) /\
  (forall resp rq rs,
      exists resp', srv_body pkg (resp, rq, rs) line = Ok (resp', rq, rs)) /\
  (forall b g r fb,
      exists b', action_body pkg (b, g, r, fb) line = Ok (b', g, r, fb)).
Proof.
  intros H. pose proof (split_line_constant _ H) as Hs.
  pose proof (get_type_format_none _ pkg Hs) as Hg.
  repeat split; try assumption.
  - intros m. unfold msg_body. now rewrite H.
  - intros resp rq rs. unfold srv_body. rewrite Hg. cbn [bind].
    destruct (contains "---" line); eauto.
  - intros b g r fb. unfold action_body. rewrite Hg. cbn [bind].
    destruct (contains "---" line); eauto.
Qed.

Lemma C9_equals_sign_drops_the_line_witness :
  split_line "int32 x  # default = 5" = Ok (None, None) /\
  get_type_format "int32 x  # default = 5" "pkgX" = Ok (None, None) /\
  (forall m, msg_body "pkgX" m "int32 x  # default = 5" = Ok m) /\
  (forall resp rq rs,
      exists resp',
        srv_body "pkgX" (resp, rq, rs) "int32 x  # default = 5"
        = Ok (resp', rq, rs)) /\
  (forall b g r fb,
      exists b',
        action_body "pkgX" (b, g, r, fb) "int32 x  # default = 5"
        = Ok (b', g, r, fb)).
Proof.
  apply (C9_equals_sign_drops_the_line "int32 x  # default = 5" "pkgX").
  reflexivity.
Defined.



(** * Further properties of the tokenizer *)

Lemma all_chars_remove p c s :
  all_chars p s = true -> all_chars p (replace (String c "") "" s) = true.
Proof.
  induction s as [|x s IH]; [reflexivity|]. cbn [all_chars]. intros H.
  apply andb_true_iff in H as [Hx Hs]. rewrite replace_char_cons.
  destruct (Ascii.eqb x c); cbn [append all_chars]; [now apply IH|].
  now rewrite Hx, IH.
Qed.

Lemma nonblank_remove_nl s :
  all_chars is_space s = false ->
  all_chars is_space (replace nl "" s) = false.
Proof.
  unfold nl. induction s as [|x s IH]; [discriminate|]. cbn [all_chars].
  intros H. rewrite replace_char_cons.
  destruct (Ascii.eqb_spec x LF) as [->|Hx].
  - cbn [append]. apply IH. exact H.
  - cbn [all_chars]. destruct (is_space x); [|reflexivity].
    cbn [andb] in *. now apply IH.
Qed.

Lemma split_char_app_lacks c a b :
  lacks c a = true -> split_char c (a ++ String c b) = a :: split_char c b.
Proof.
  induction a as [|x a IH]; intros H.
  - cbn [append split_char]. now rewrite Ascii.eqb_refl.
  - rewrite lacks_cons in H. apply andb_true_iff in H as [Hx Ha].
    apply negb_true_iff in Hx. cbn [append split_char].
    now rewrite Hx, (IH Ha).
Qed.

Lemma prefix_app_lacks c old a x :
  a <> "" -> lacks c a = true -> prefix (String c old) (a ++ x) = false.
Proof.
  destruct a as [|y a]; [congruence|]. intros _ H.
  rewrite lacks_cons in H. apply andb_true_iff in H as [Hy _].
  apply negb_true_iff in Hy. cbn [append].
  now rewrite prefix_cons, Ascii.eqb_sym, Hy.
Qed.

Lemma nonblank_app a x :
  all_chars is_space a = false -> all_chars is_space (a ++ x) = false.
Proof. intros H. now rewrite all_chars_app, H. Qed.

Lemma nonblank_not_empty s : all_chars is_space s = false -> s <> "".
Proof. now intros H ->. Qed.

Lemma isspace_nonblank s : all_chars is_space s = false -> isspace s = false.
Proof. intros H. destruct s; [reflexivity | exact H]. Qed.

Lemma length_eqb_0 s : s <> "" -> (String.length s =? 0)%nat = false.
Proof. now destruct s. Qed.

(** A line of whitespace, or of whitespace and a comment, has no token. *)
Lemma split_line_blank ws :
  all_chars is_space ws = true -> split_line ws = Ok (None, None).
Proof.
  intros H. unfold split_line.
  pose proof (all_chars_remove is_space LF ws H) as Hl. fold nl in Hl.
  destruct (replace nl "" ws) as [|x l]; [reflexivity|].
  unfold isspace. rewrite Hl. now rewrite !orb_true_r.
Qed.

Lemma split_line_comment ws c :
  all_chars is_space ws = true -> split_line (ws ++ "#" ++ c) = Ok (None, None).
Proof.
  intros H. unfold split_line.
  pose proof (all_chars_remove is_space LF ws H) as Hl. fold nl in Hl.
  unfold nl. rewrite replace_char_app, replace_char_app. fold nl.
  change (replace nl "" "#") with "#".
  set (w := replace nl "" ws) in *. set (r := replace nl "" c).
  destruct w as [|x w].
  { cbn [append]. unfold startswith. now rewrite prefix_cons, prefix_nil. }
  destruct (startswith (String x w ++ "#" ++ r) "#"
            || contains "=" (String x w ++ "#" ++ r)
            || (String.length (String x w ++ "#" ++ r) =? 0)%nat
            || isspace (String x w ++ "#" ++ r)); [reflexivity|].
  assert (Hh : lacks "#" (String x w) = true)
    by (apply (all_chars_lacks is_space); [exact Hl | reflexivity]).
  rewrite contains_char, lacks_app, Hh. cbn [andb negb append lacks all_chars
    Ascii.eqb Bool.eqb].
  change (String x (w ++ String "#" r)) with (String x w ++ String "#" r).
  rewrite (split_char_app_lacks _ _ _ Hh). cbn [getitem nth_error bind].
  unfold isspace. now rewrite Hl.
Qed.

(** ** The shape of the bracket substitution on one line *)

Lemma split_first c s :
  lacks c s = true \/
  exists a u, s = a ++ String c u /\ lacks c a = true.
Proof.
  induction s as [|x s IH]; [now left|].
  destruct (Ascii.eqb_spec x c) as [->|Hx].
  - right. exists "", s. now split.
  - destruct IH as [IH|(a & u & -> & Ha)].
    + left. rewrite lacks_cons, IH. apply Ascii.eqb_neq in Hx. now rewrite Hx.
    + right. exists (String x a), u. split; [reflexivity|].
      rewrite lacks_cons, Ha. apply Ascii.eqb_neq in Hx. now rewrite Hx.
Qed.

Lemma split_last c s :
  lacks c s = true \/
  exists m r, s = m ++ String c r /\ lacks c r = true.
Proof.
  induction s as [|x s IH]; [now left|].
  destruct IH as [IH|(m & r & -> & Hr)].
  - destruct (Ascii.eqb_spec x c) as [->|Hx].
    + right. exists "", s. now split.
    + left. rewrite lacks_cons, IH. apply Ascii.eqb_neq in Hx. now rewrite Hx.
  - right. exists (String x m), r. now split.
Qed.

Lemma re_sub_shape s :
  lacks LF s = true ->
  re_sub_brackets s = s \/
  exists a mid rest,
    s = a ++ "[" ++ mid ++ "]" ++ rest /\
    lacks "[" a = true /\ lacks LF mid = true /\ lacks "]" rest = true.
Proof.
  intros Hs. destruct (split_first "[" s) as [H|(a & u & -> & Ha)].
  - left. now apply re_sub_lacks_open.
  - destruct (split_last "]" u) as [H|(m & r & -> & Hr)].
    + left. unfold re_sub_brackets. rewrite (re_sub_aux_app_lacks _ _ Ha).
      f_equal. apply re_sub_lacks_close. now rewrite lacks_cons, H.
    + right. exists a, m, r. repeat split; try assumption.
      rewrite lacks_app in Hs. apply andb_true_iff in Hs as [_ Hs].
      rewrite lacks_cons in Hs. apply andb_true_iff in Hs as [_ Hs].
      rewrite lacks_app in Hs. now apply andb_true_iff in Hs as [Hs _].
Qed.

(** ** Whitespace around the tokens *)

Lemma blank_run_space w : blank_run w = true -> all_chars is_space w = true.
Proof.
  apply all_chars_impl. intros c H. now apply andb_true_iff in H as [H _].
Qed.

Lemma blank_run_lacks_LF w : blank_run w = true -> lacks LF w = true.
Proof.
  apply all_chars_impl. intros c H. now apply andb_true_iff in H as [_ H].
Qed.

Lemma lstrip_app_space w s :
  all_chars is_space w = true -> lstrip (w ++ s) = lstrip s.
Proof.
  induction w as [|x w IH]; [reflexivity|]. cbn [all_chars]. intros H.
  apply andb_true_iff in H as [Hx Hw]. cbn [append lstrip].
  now rewrite Hx, (IH Hw).
Qed.

Lemma rstrip_space w : all_chars is_space w = true -> rstrip w = "".
Proof.
  induction w as [|x w IH]; [reflexivity|]. cbn [all_chars]. intros H.
  apply andb_true_iff in H as [Hx Hw]. cbn [rstrip].
  now rewrite (IH Hw), Hx.
Qed.

Lemma rstrip_app_space s w :
  all_chars is_space w = true -> rstrip (s ++ w) = rstrip s.
Proof.
  intros Hw. induction s as [|x s IH].
  - cbn [append]. now apply rstrip_space.
  - cbn [append rstrip]. now rewrite IH.
Qed.

Lemma span_token_space w s :
  w <> "" -> all_chars is_space w = true ->
  span_token (w ++ s) = ("", w ++ s).
Proof.
  destruct w as [|x w]; [congruence|]. intros _ H. cbn [all_chars] in H.
  apply andb_true_iff in H as [Hx _]. cbn [append span_token].
  now rewrite Hx.
Qed.

Lemma split_maxsplit1_spaced w1 t w2 n w3 :
  all_chars is_space w1 = true ->
  t <> "" -> nospace t = true ->
  w2 <> "" -> all_chars is_space w2 = true ->
  n <> "" -> nospace n = true ->
  split_maxsplit1 (w1 ++ t ++ w2 ++ n ++ w3) = [t; n ++ w3].
Proof.
  intros H1 Hte Ht H2e H2 Hne Hn. unfold split_maxsplit1.
  rewrite (lstrip_app_space _ _ H1).
  assert (Hl' : lstrip (n ++ w3) = n ++ w3).
  { destruct n as [|c n]; [congruence|]. unfold nospace in Hn.
    cbn [all_chars] in Hn. apply andb_true_iff in Hn as [Hc _].
    apply negb_true_iff in Hc. cbn [append lstrip]. now rewrite Hc. }
  destruct t as [|c t]; [congruence|].
  assert (Hc : is_space c = false).
  { unfold nospace in Ht. cbn [all_chars] in Ht.
    apply andb_true_iff in Ht as [Hc _]. now apply negb_true_iff in Hc. }
  change (String c t ++ w2 ++ n ++ w3) with (String c (t ++ w2 ++ n ++ w3)).
  cbn [lstrip]. rewrite Hc.
  change (String c (t ++ w2 ++ n ++ w3)) with (String c t ++ w2 ++ n ++ w3).
  rewrite (span_token_app _ _ Ht (span_token_space w2 (n ++ w3) H2e H2)).
  rewrite (lstrip_app_space _ _ H2), Hl'.
  destruct n as [|c' n]; [congruence | reflexivity].
Qed.

(** X1: the tokenizer and the type resolver never raise, whatever the
    line: the subscript [split[0]] is only reached with a token in the
    list. *)
Theorem X1_tokenizer_never_raises line pkg :
  split_line line <> IndexError /\ get_type_format line pkg <> IndexError.
Proof.
  destruct (split_line_total line) as [r Hr].
  destruct (get_type_format_total line pkg) as [r' Hr'].
  rewrite Hr, Hr'. split; discriminate.
Qed.

(** X2: a line feed anywhere in the line is dropped before anything else
    is looked at; in particular the line feed that ends a line read from a
    file changes nothing. *)
Theorem X2_line_feeds_are_dropped a b pkg :
  split_line (a ++ nl ++ b) = split_line (a ++ b) /\
  get_type_format (a ++ nl ++ b) pkg = get_type_format (a ++ b) pkg /\
  split_line (a ++ nl) = split_line a.
Proof.
  assert (E : split_line (a ++ nl ++ b) = split_line (a ++ b)).
  { unfold split_line, nl. rewrite !replace_char_app.
    now rewrite replace_char_cons, Ascii.eqb_refl. }
  split; [exact E|]. split; [|apply split_line_trailing_nl].
  unfold get_type_format. now rewrite E.
Qed.

(** X3: a line made of whitespace only, and a line whose first character
    after optional whitespace is ['#'], yield [(None, None)]. *)
Theorem X3_blank_and_comment_lines ws c :
  all_chars is_space ws = true ->
  split_line ws = Ok (None, None) /\
  split_line (ws ++ "#" ++ c) = Ok (None, None).
Proof.
  intros H. split; [now apply split_line_blank | now apply split_line_comment].
Qed.

Lemma X3_blank_and_comment_lines_witness :
  split_line "   " = Ok (None, None) /\
  split_line ("   " ++ "#" ++ " int32 x") = Ok (None, None).
Proof. apply (X3_blank_and_comment_lines "   " " int32 x"). reflexivity. Defined.

(** X4: what follows the first ['#'] of a line is ignored, provided it
    holds no ['=']: the line tokenizes like its part before the ['#']. *)
Theorem X4_inline_comment_is_cut head rest :
  lacks "#" head = true -> lacks "=" rest = true ->
  split_line (head ++ "#" ++ rest) = split_line head.
Proof.
  intros Hh Hr. destruct (all_chars is_space head) eqn:Hb.
  - now rewrite split_line_comment, split_line_blank.
  - unfold split_line. unfold nl.
    rewrite replace_char_app, replace_char_app. fold nl.
    change (replace nl "" "#") with "#".
    apply nonblank_remove_nl in Hb.
    assert (Hh' : lacks "#" (replace nl "" head) = true)
      by (unfold nl; now rewrite lacks_remove by discriminate).
    assert (Hr' : lacks "=" (replace nl "" rest) = true)
      by (unfold nl; now rewrite lacks_remove by discriminate).
    set (h := replace nl "" head) in *. set (r := replace nl "" rest) in *.
    pose proof (nonblank_not_empty _ Hb) as Hne.
    unfold startswith.
    rewrite (prefix_app_lacks "#" "" h ("#" ++ r) Hne Hh').
    rewrite (prefix_lacks "#" "" h Hh').
    rewrite (isspace_nonblank _ (nonblank_app h ("#" ++ r) Hb)).
    rewrite (isspace_nonblank _ Hb).
    rewrite (length_eqb_0 h Hne).
    rewrite (length_eqb_0 (h ++ "#" ++ r))
      by (destruct h; [congruence | discriminate]).
    assert (Ec : contains "=" (h ++ "#" ++ r) = contains "=" h).
    { rewrite !contains_char, !lacks_app, Hr'. cbn. now rewrite andb_true_r. }
    rewrite Ec. destruct (contains "=" h); [reflexivity|]. cbn [orb].
    rewrite (contains_char "#" (h ++ "#" ++ r)), lacks_app, Hh'.
    cbn [andb negb append lacks all_chars Ascii.eqb Bool.eqb].
    rewrite (contains_lacks "#" "" h Hh').
    change (h ++ String "#" r) with (h ++ String "#" r).
    rewrite (split_char_app_lacks _ _ _ Hh'). cbn [getitem nth_error bind].
    reflexivity.
Qed.

Lemma X4_inline_comment_is_cut_witness :
  split_line ("float64 x " ++ "#" ++ " metres") = split_line "float64 x ".
Proof.
  apply (X4_inline_comment_is_cut "float64 x " " metres"); reflexivity.
Defined.

(** X5: on a string without line feed the bracket substitution is
    idempotent: a line whose annotation is already collapsed to [[]] is
    left as it is. *)
Theorem X5_bracket_substitution_idempotent s :
  lacks LF s = true ->
  re_sub_brackets (re_sub_brackets s) = re_sub_brackets s.
Proof.
  intros Hs. destruct (re_sub_shape s Hs) as [E|(a & m & r & -> & Ha & Hm & Hr)].
  - now rewrite !E.
  - rewrite (re_sub_collapse a m r Ha Hm Hr).
    exact (re_sub_collapse a "" r Ha eq_refl Hr).
Qed.

Lemma X5_bracket_substitution_idempotent_witness :
  re_sub_brackets (re_sub_brackets "int8[<=4] data[2]")
  = re_sub_brackets "int8[<=4] data[2]".
Proof.
  apply (X5_bracket_substitution_idempotent "int8[<=4] data[2]"). reflexivity.
Defined.

(** X6: indentation, any run of blanks between type and name, and
    trailing blanks do not matter: the field line still yields the type
    and the name, both stripped. *)
Theorem X6_blanks_around_tokens (w1 t w2 n w3 : string) :
  blank_run w1 = true -> blank_run w2 = true -> w2 <> "" ->
  blank_run w3 = true ->
  unscoped_type t = true -> field_name n = true ->
  split_line (w1 ++ t ++ w2 ++ n ++ w3) = Ok (Some t, Some n).
Proof.
  intros B1 B2 H2e B3 Ht Hn.
  apply unscoped_type_inv in Ht as [Hte Ht].
  apply field_name_inv in Hn as [Hne Hn].
  pose proof (blank_run_space _ B1) as S1. pose proof (blank_run_lacks_LF _ B1) as F1.
  pose proof (blank_run_space _ B2) as S2. pose proof (blank_run_lacks_LF _ B2) as F2.
  pose proof (blank_run_space _ B3) as S3. pose proof (blank_run_lacks_LF _ B3) as F3.
  clear B1 B2 B3.
  assert (St : nospace t = true) by chars.
  assert (Sn : nospace n = true) by chars.
  set (line := w1 ++ t ++ w2 ++ n ++ w3).
  assert (L1 : lacks LF line = true) by (subst line; chars).
  assert (L2 : lacks "=" line = true) by (subst line; chars).
  assert (L3 : lacks "#" line = true) by (subst line; chars).
  assert (L4 : lacks "[" line = true) by (subst line; chars).
  assert (Hb : all_chars is_space line = false).
  { subst line. rewrite all_chars_app, (not_blank_token _ _ Hte St).
    apply andb_false_r. }
  rewrite (split_line_plain_pair line L1 L2 L3 Hb t (n ++ w3)).
  - rewrite (replace_lacks "/" "" "/msg/" t) by chars.
    rewrite (strip_nospace _ St). unfold strip.
    assert (Hl : lstrip (n ++ w3) = n ++ w3).
    { destruct n as [|c n]; [congruence|]. unfold nospace in Sn.
      cbn [all_chars] in Sn. apply andb_true_iff in Sn as [Hc _].
      apply negb_true_iff in Hc. cbn [append lstrip]. now rewrite Hc. }
    now rewrite Hl, (rstrip_app_space _ _ S3), (rstrip_nospace _ Sn).
  - rewrite (re_sub_lacks_open _ L4). subst line.
    now apply split_maxsplit1_spaced.
Qed.

Lemma X6_blanks_around_tokens_witness :
  split_line ("  " ++ "uint8" ++ "    " ++ "level" ++ " ")
  = Ok (Some "uint8", Some "level").
Proof.
  apply (X6_blanks_around_tokens "  " "uint8" "    " "level" " ");
    try reflexivity. discriminate.
Defined.

(** * Further properties of the type resolver *)

Lemma replace_arr_keeps_quote x :
  (exists b, replace_aux "[]" "" 0 (x ++ "'") = b ++ "'") /\
  (x <> "" -> exists b, replace_aux "[]" "" 1 (x ++ "'") = b ++ "'").
Proof.
  induction x as [|c x [IH0 IH1]].
  - split; [exists ""; reflexivity | congruence].
  - split.
    + cbn [append replace_aux]. rewrite prefix_cons.
      destruct (Ascii.eqb "[" c && prefix "]" (x ++ "'")) eqn:E.
      * apply andb_true_iff in E as [_ E].
        assert (Hx : x <> "") by (intros ->; discriminate E).
        cbn [String.length Nat.sub append].
        exact (IH1 Hx).
      * destruct IH0 as [b Hb]. exists (String c b). cbn [append]. now rewrite Hb.
    + intros _. cbn [append replace_aux]. exact IH0.
Qed.

Lemma all_chars_replace_char p c new s :
  all_chars p s = true -> all_chars p new = true ->
  all_chars p (replace (String c "") new s) = true.
Proof.
  intros Hs Hn. induction s as [|x s IH]; [reflexivity|].
  cbn [all_chars] in Hs. apply andb_true_iff in Hs as [Hx Hs].
  rewrite replace_char_cons. destruct (Ascii.eqb x c).
  - now rewrite all_chars_app, Hn, IH.
  - cbn [all_chars]. now rewrite Hx, IH.
Qed.

Lemma primitive_lacks_slash x :
  str_in x primitive_types = true -> lacks "/" x = true.
Proof.
  unfold str_in. cbn [existsb primitive_types]. intros H.
  repeat (apply orb_true_iff in H as [H|H];
          [apply String.eqb_eq in H; subst x; reflexivity|]).
  discriminate H.
Qed.

(** A type token with package separators, followed by its name. *)
Lemma split_line_scoped_field T n :
  field_name T = true -> field_name n = true ->
  split_line (T ++ " " ++ n) = Ok (Some (replace "/" "/msg/" T), Some n).
Proof.
  intros HT Hn. apply field_name_inv in HT as [HTe HT].
  apply field_name_inv in Hn as [Hne Hn].
  assert (St : nospace T = true) by chars.
  assert (Sn : nospace n = true) by chars.
  assert (L1 : lacks LF (T ++ " " ++ n) = true) by chars.
  assert (L2 : lacks "=" (T ++ " " ++ n) = true) by chars.
  assert (L3 : lacks "#" (T ++ " " ++ n) = true) by chars.
  rewrite (split_line_plain_pair (T ++ " " ++ n) L1 L2 L3
             (not_blank_token _ _ HTe St) T n).
  - rewrite !strip_nospace; [reflexivity | exact Sn |].
    now apply all_chars_replace_char.
  - rewrite re_sub_lacks_open by chars. now apply split_maxsplit1_pair.
Qed.

Lemma split_line_scoped_array_field T a n :
  field_name T = true -> annotation a = true -> field_name n = true ->
  split_line (T ++ "[" ++ a ++ "]" ++ " " ++ n)
  = Ok (Some (replace "/" "/msg/" T ++ "[]"), Some n).
Proof.
  intros HT Ha Hn. apply field_name_inv in HT as [HTe HT].
  apply field_name_inv in Hn as [Hne Hn]. unfold annotation in Ha.
  assert (St : nospace T = true) by chars.
  assert (Sn : nospace n = true) by chars.
  assert (Sa : nospace (T ++ "[]") = true) by chars.
  set (line := T ++ "[" ++ a ++ "]" ++ " " ++ n).
  assert (L1 : lacks LF line = true) by (subst line; chars).
  assert (L2 : lacks "=" line = true) by (subst line; chars).
  assert (L3 : lacks "#" line = true) by (subst line; chars).
  rewrite (split_line_plain_pair line L1 L2 L3
             (not_blank_token _ _ HTe St) (T ++ "[]") n).
  - unfold nl. rewrite replace_char_app.
    change (replace "/" "/msg/" "[]") with "[]".
    rewrite !strip_nospace; [reflexivity | exact Sn |].
    unfold nospace. rewrite all_chars_app.
    now rewrite (all_chars_replace_char _ "/" "/msg/" T St eq_refl).
  - subst line. rewrite re_sub_collapse by chars.
    rewrite <- append_assoc. apply split_maxsplit1_pair; try assumption.
    now destruct T.
Qed.

Lemma scoped_token_chars p t :
  unscoped_type p = true -> unscoped_type t = true ->
  field_name (p ++ "/" ++ t) = true /\
  replace "/" "/msg/" (p ++ "/" ++ t) = p ++ "/msg/" ++ t /\
  lacks "[" (p ++ "/msg/" ++ t) = true.
Proof.
  intros Hp Ht. apply unscoped_type_inv in Hp as [Hpe Hp].
  apply unscoped_type_inv in Ht as [Hte Ht].
  assert (token_name : forall c, token_char c = true -> name_char c = true).
  { intros c H. unfold token_char in H. now apply andb_true_iff in H as [H _]. }
  split; [|split].
  - unfold field_name. rewrite !all_chars_app.
    rewrite (all_chars_impl _ _ _ token_name Hp).
    rewrite (all_chars_impl _ _ _ token_name Ht).
    destruct p; [congruence | reflexivity].
  - rewrite replace_char_app, (replace_lacks "/" "" "/msg/" p) by chars.
    rewrite replace_char_app. change (replace "/" "/msg/" "/") with "/msg/".
    now rewrite (replace_lacks "/" "" "/msg/" t) by chars.
  - chars.
Qed.

Lemma get_type_format_scoped line pkg T n :
  split_line line = Ok (Some T, n) ->
  lacks "/" T = false ->
  get_type_format line pkg
  = Ok (n, Some (replace "[]" "" ("'" ++ T ++ "'") ++ "[]")).
Proof.
  intros E HT. unfold get_type_format. rewrite E. cbn [bind].
  assert (Hp : str_in T primitive_types = false).
  { destruct (str_in T primitive_types) eqn:Hs; [|reflexivity].
    apply primitive_lacks_slash in Hs. congruence. }
  rewrite Hp, contains_char, HT. reflexivity.
Qed.

Lemma quote_scoped T tail :
  lacks "[" T = true ->
  replace "[]" "" ("'" ++ T ++ tail) = "'" ++ T ++ replace "[]" "" tail.
Proof.
  intros H. rewrite <- (append_assoc "'" T tail).
  rewrite (replace_app_lacks "[" "]" "" ("'" ++ T) tail)
    by (rewrite lacks_app; exact H).
  now rewrite append_assoc.
Qed.

(** X7: a resolved type is either a member of the primitive list, returned
    as it is, or a string that opens with a quote and closes with the
    quote followed by [[]]; nothing else comes out of the resolver. *)
Theorem X7_resolved_type_shape line pkg v ty :
  get_type_format line pkg = Ok (v, Some ty) ->
  str_in ty primitive_types = true \/
  exists body, ty = "'" ++ body ++ "'[]".
Proof.
  unfold get_type_format. destruct (split_line line) as [[[t|] n]|];
    cbn [bind]; try discriminate.
  destruct (str_in t primitive_types) eqn:Hp; cbn [negb]; cbv zeta; intros E;
    injection E as _ <-; [now left|right].
  match goal with
  | |- context [replace_aux "[]" "" 0 (?Q ++ "'")] =>
      destruct (replace_arr_keeps_quote Q) as [[b Hb] _]; rewrite Hb
  end.
  exists b. now rewrite append_assoc.
Qed.

Lemma X7_resolved_type_shape_witness :
  str_in "'pkgX/msg/Foo'[]" primitive_types = true \/
  exists body, "'pkgX/msg/Foo'[]" = "'" ++ body ++ "'[]".
Proof.
  apply (X7_resolved_type_shape "Foo bar" "pkgX" (Some "bar")). reflexivity.
Defined.

(** X8: a reference that names its package, [P/T NAME] or
    [P/T[ann] NAME], resolves to ['P/msg/T'[]] whatever the declaring
    package is: the declaring package is only used for unscoped names. *)
Theorem X8_scoped_reference (p t a n pkg : string) :
  unscoped_type p = true -> unscoped_type t = true ->
  annotation a = true -> field_name n = true ->
  get_type_format (p ++ "/" ++ t ++ " " ++ n) pkg
  = Ok (Some n, Some ("'" ++ p ++ "/msg/" ++ t ++ "'[]")) /\
  get_type_format (p ++ "/" ++ t ++ "[" ++ a ++ "]" ++ " " ++ n) pkg
  = Ok (Some n, Some ("'" ++ p ++ "/msg/" ++ t ++ "'[]")).
Proof.
  intros Hp Ht Ha Hn.
  destruct (scoped_token_chars p t Hp Ht) as (HT & HR & HB).
  assert (HS : forall x, lacks "/" ((p ++ "/msg/" ++ t) ++ x) = false).
  { intros x. rewrite !lacks_app. cbn. now rewrite !andb_false_r. }
  split.
  - assert (E : split_line (p ++ "/" ++ t ++ " " ++ n)
                = Ok (Some (p ++ "/msg/" ++ t), Some n)).
    { rewrite <- HR, <- (split_line_scoped_field _ n HT Hn).
      f_equal. now rewrite append_assoc. }
    rewrite (get_type_format_scoped _ pkg _ _ E).
    + rewrite (quote_scoped _ "'" HB).
      change (replace "[]" "" "'") with "'". now rewrite !append_assoc.
    + rewrite <- (append_nil_r (p ++ "/msg/" ++ t)). apply HS.
  - assert (E : split_line (p ++ "/" ++ t ++ "[" ++ a ++ "]" ++ " " ++ n)
                = Ok (Some ((p ++ "/msg/" ++ t) ++ "[]"), Some n)).
    { rewrite <- HR, <- (split_line_scoped_array_field _ a n HT Ha Hn).
      f_equal. now rewrite append_assoc. }
    rewrite (get_type_format_scoped _ pkg _ _ E (HS "[]")).
    rewrite (append_assoc (p ++ "/msg/" ++ t) "[]" "'").
    rewrite (quote_scoped _ ("[]" ++ "'") HB).
    change (replace "[]" "" ("[]" ++ "'")) with "'". now rewrite !append_assoc.
Qed.

Lemma X8_scoped_reference_witness :
  get_type_format ("geometry_msgs" ++ "/" ++ "Pose" ++ " " ++ "pose") "pkgX"
  = Ok (Some "pose", Some ("'" ++ "geometry_msgs" ++ "/msg/" ++ "Pose" ++ "'[]"))
  /\
  get_type_format
    ("geometry_msgs" ++ "/" ++ "Pose" ++ "[" ++ "4" ++ "]" ++ " " ++ "pose")
    "pkgX"
  = Ok (Some "pose", Some ("'" ++ "geometry_msgs" ++ "/msg/" ++ "Pose" ++ "'[]")).
Proof.
  apply (X8_scoped_reference "geometry_msgs" "Pose" "4" "pose" "pkgX");
    reflexivity.
Defined.

(** * Further properties of the builders *)

Lemma for_each_skip {S : Type} (body : S -> string -> exc S) l pre post st :
  (forall s, body s l = Ok s) ->
  for_each body st (pre ++ l :: post) = for_each body st (pre ++ post).
Proof.
  intros H. rewrite !for_each_app. destruct (for_each body st pre); [|reflexivity].
  cbn [bind for_each]. now rewrite H.
Qed.

Lemma filter_no_separator ls :
  forallb (fun l => negb (is_separator l)) ls = true ->
  filter (fun l => negb (is_separator l)) ls = ls.
Proof.
  induction ls as [|l ls IH]; [reflexivity|]. cbn [forallb filter]. intros H.
  apply andb_true_iff in H as [Hl Hls]. now rewrite Hl, IH.
Qed.

Lemma request_lines_run run rest :
  forallb (fun l => negb (is_separator l)) run = true ->
  request_lines (run ++ rest) = (run ++ request_lines rest)%list.
Proof.
  induction run as [|l run IH]; [reflexivity|]. cbn [forallb]. intros H.
  apply andb_true_iff in H as [Hl Hrun]. apply negb_true_iff in Hl.
  cbn [app request_lines]. now rewrite Hl, IH.
Qed.

Lemma response_lines_run run rest :
  forallb (fun l => negb (is_separator l)) run = true ->
  response_lines (run ++ rest) = response_lines rest.
Proof.
  induction run as [|l run IH]; [reflexivity|]. cbn [forallb]. intros H.
  apply andb_true_iff in H as [Hl Hrun]. apply negb_true_iff in Hl.
  cbn [app response_lines]. now rewrite Hl, IH.
Qed.

(** X9: the three builders never raise, whatever the lines of the file,
    and name their result after the file's stem. *)
Theorem X9_builders_never_raise f pkg :
  (exists m, process_msg_file f pkg = Ok (stem f, m)) /\
  (exists rq rs, process_srv_file f pkg = Ok (stem f, rq, rs)) /\
  (exists g r fb, process_action_file f pkg = Ok (stem f, g, r, fb)).
Proof.
  split; [|split].
  - unfold process_msg_file. rewrite msg_loop.
    destruct (section_fields_total pkg (lines f) []) as [m E]. rewrite E.
    now exists m.
  - rewrite process_srv_file_sections.
    destruct (section_fields_total pkg (request_lines (lines f)) []) as [rq E1].
    destruct (section_fields_total pkg (response_lines (lines f)) []) as [rs E2].
    rewrite E1, E2. now exists rq, rs.
  - rewrite process_action_file_sections.
    destruct (section_fields_total pkg (lines_at 0 0 (lines f)) []) as [g E0].
    destruct (section_fields_total pkg (lines_at 1 0 (lines f)) []) as [r E1].
    destruct (section_fields_total pkg (lines_at 2 0 (lines f)) []) as [fb E2].
    rewrite E0, E1, E2. now exists g, r, fb.
Qed.

(** X10: a message file that declares fields with pairwise different
    names, one per line, is read back as exactly these fields, in the
    order of the file, each with its resolved type. *)
Theorem X10_message_fields_in_file_order pkg name fields :
  contains "[]" pkg = false ->
  forallb (fun f => unscoped_type (fst f) && field_name (snd f)) fields = true ->
  NoDup (map snd fields) ->
  process_msg_file (mkSpecFile name (map field_line fields)) pkg
  = Ok (name, map (field_entry pkg) fields).
Proof.
  intros Hp Hw Hn. unfold process_msg_file. cbn [stem lines].
  rewrite msg_loop, (section_fields_rendered pkg fields [] Hp Hw Hn).
  - reflexivity.
  - intros f _ [].
Qed.

Lemma X10_message_fields_in_file_order_witness :
  process_msg_file
    (mkSpecFile "Pose2D"
       (map field_line [("float64", "x"); ("float64", "y"); ("Angle", "theta")]))
    "nav"
  = Ok ("Pose2D",
        map (field_entry "nav")
          [("float64", "x"); ("float64", "y"); ("Angle", "theta")]).
Proof.
  apply (X10_message_fields_in_file_order "nav" "Pose2D"
           [("float64", "x"); ("float64", "y"); ("Angle", "theta")]);
    [reflexivity | reflexivity |].
  repeat constructor; cbn; intuition discriminate.
Defined.

(** X11: a line the tokenizer discards (a comment, a blank line, a
    constant) can be put anywhere in a file without changing the result
    of the message builder, nor, unless the line holds [---], the result
    of the service and action builders. *)
Theorem X11_discarded_lines_change_nothing l pkg name pre post :
  split_line l = Ok (None, None) ->
  process_msg_file (mkSpecFile name (pre ++ l :: post)) pkg
  = process_msg_file (mkSpecFile name (pre ++ post)) pkg /\
  (contains "---" l = false ->
   process_srv_file (mkSpecFile name (pre ++ l :: post)) pkg
   = process_srv_file (mkSpecFile name (pre ++ post)) pkg /\
   process_action_file (mkSpecFile name (pre ++ l :: post)) pkg
   = process_action_file (mkSpecFile name (pre ++ post)) pkg).
Proof.
  intros Hs. pose proof (get_type_format_none _ pkg Hs) as Hg.
  assert (Hf : forall d, field_body pkg d l = Ok d).
  { intros d. unfold field_body. now rewrite Hg. }
  split; [|intros Hsep; split].
  - unfold process_msg_file. cbn [stem lines]. rewrite !msg_loop.
    unfold section_fields.
    rewrite (for_each_skip (field_body pkg) l pre post); [reflexivity | exact Hf].
  - unfold process_srv_file. cbn [stem lines].
    rewrite (for_each_skip (srv_body pkg) l pre post); [reflexivity|].
    intros [[resp rq] rs]. rewrite (srv_body_field _ _ _ _ _ Hsep), Hf.
    now destruct resp.
  - unfold process_action_file. cbn [stem lines].
    rewrite (for_each_skip (action_body pkg) l pre post); [reflexivity|].
    intros [[[b g] r] fb]. now rewrite (action_body_field _ _ _ _ _ _ _ _ Hsep Hg).
Qed.

Lemma X11_discarded_lines_change_nothing_witness :
  process_msg_file
    (mkSpecFile "M" (["int32 a" ++ nl] ++ ("# note" ++ nl) :: ["int32 b" ++ nl]))
    "pkgX"
  = process_msg_file
      (mkSpecFile "M" (["int32 a" ++ nl] ++ ["int32 b" ++ nl])) "pkgX" /\
  (contains "---" ("# note" ++ nl) = false ->
   process_srv_file
     (mkSpecFile "M" (["int32 a" ++ nl] ++ ("# note" ++ nl) :: ["int32 b" ++ nl]))
     "pkgX"
   = process_srv_file
       (mkSpecFile "M" (["int32 a" ++ nl] ++ ["int32 b" ++ nl])) "pkgX" /\
   process_action_file
     (mkSpecFile "M" (["int32 a" ++ nl] ++ ("# note" ++ nl) :: ["int32 b" ++ nl]))
     "pkgX"
   = process_action_file
       (mkSpecFile "M" (["int32 a" ++ nl] ++ ["int32 b" ++ nl])) "pkgX").
Proof.
  apply (X11_discarded_lines_change_nothing ("# note" ++ nl) "pkgX" "M").
  reflexivity.
Defined.

Lemma lines_at_no_separator k b ls :
  forallb (fun l => negb (is_separator l)) ls = true ->
  lines_at k b ls = if (b =? k)%nat then ls else [].
Proof.
  intros H. rewrite <- (app_nil_r ls) at 1. rewrite (lines_at_run _ _ _ _ H).
  cbn [lines_at]. apply app_nil_r.
Qed.

Lemma request_lines_no_separator ls :
  forallb (fun l => negb (is_separator l)) ls = true -> request_lines ls = ls.
Proof.
  intros H. rewrite <- (app_nil_r ls) at 1. rewrite (request_lines_run _ _ H).
  apply app_nil_r.
Qed.

Lemma response_lines_no_separator ls :
  forallb (fun l => negb (is_separator l)) ls = true -> response_lines ls = [].
Proof.
  intros H. rewrite <- (app_nil_r ls). now rewrite (response_lines_run _ _ H).
Qed.

(** X12: in a service file only the first separator counts: a further
    line with [---] after it neither switches anything nor adds a field,
    so taking it out leaves the result as it is. *)
Theorem X12_later_separators_are_swallowed pkg name pre sep a sep2 b :
  is_separator sep = true -> is_separator sep2 = true ->
  process_srv_file (mkSpecFile name (pre ++ sep :: a ++ sep2 :: b)) pkg
  = process_srv_file (mkSpecFile name (pre ++ sep :: a ++ b)) pkg.
Proof.
  intros H1 H2. unfold process_srv_file. cbn [stem lines]. f_equal.
  rewrite !for_each_app.
  destruct (for_each (srv_body pkg) (false, [], []) pre) as [[[resp rq] rs]|];
    [|reflexivity].
  cbn [bind for_each]. rewrite (srv_body_separator _ _ _ _ _ H1). cbn [bind].
  rewrite !srv_loop_response, !filter_app. cbn [filter]. now rewrite H2.
Qed.

Lemma X12_later_separators_are_swallowed_witness :
  process_srv_file
    (mkSpecFile "AddTwoInts"
       (["int64 a" ++ nl] ++ ("---" ++ nl) :: ["int64 sum" ++ nl]
        ++ ("---" ++ nl) :: ["int64 extra" ++ nl])) "pkgX"
  = process_srv_file
      (mkSpecFile "AddTwoInts"
         (["int64 a" ++ nl] ++ ("---" ++ nl) :: ["int64 sum" ++ nl]
          ++ ["int64 extra" ++ nl])) "pkgX".
Proof.
  apply (X12_later_separators_are_swallowed "pkgX" "AddTwoInts");
    reflexivity.
Defined.

(** X13: on a file without separator line the three builders agree: the
    request of the service builder and the goal of the action builder are
    the FieldSet of the message builder, and the other sections are
    empty. *)
Theorem X13_no_separator_one_section f pkg :
  forallb (fun l => negb (is_separator l)) (lines f) = true ->
  process_srv_file f pkg
  = (r <- process_msg_file f pkg ;; Ok (fst r, snd r, [])) /\
  process_action_file f pkg
  = (r <- process_msg_file f pkg ;; Ok (fst r, snd r, [], [])).
Proof.
  intros H. rewrite process_srv_file_sections, process_action_file_sections.
  rewrite (request_lines_no_separator _ H), (response_lines_no_separator _ H).
  rewrite !(lines_at_no_separator _ _ _ H). cbn [Nat.eqb].
  unfold process_msg_file. rewrite msg_loop.
  destruct (section_fields pkg (lines f) []); split; reflexivity.
Qed.

Lemma X13_no_separator_one_section_witness :
  process_srv_file (mkSpecFile "M" ["int32 a" ++ nl; "Foo b" ++ nl]) "pkgX"
  = (r <- process_msg_file (mkSpecFile "M" ["int32 a" ++ nl; "Foo b" ++ nl])
            "pkgX" ;;
     Ok (fst r, snd r, [])) /\
  process_action_file (mkSpecFile "M" ["int32 a" ++ nl; "Foo b" ++ nl]) "pkgX"
  = (r <- process_msg_file (mkSpecFile "M" ["int32 a" ++ nl; "Foo b" ++ nl])
            "pkgX" ;;
     Ok (fst r, snd r, [], [])).
Proof.
  apply (X13_no_separator_one_section
           (mkSpecFile "M" ["int32 a" ++ nl; "Foo b" ++ nl]) "pkgX").
  reflexivity.
Defined.

(** X14: on a file with exactly one separator line the action builder
    reads what the service builder reads: goal is the request, result is
    the response, and feedback is empty. *)
Theorem X14_one_separator_action_is_service pkg name pre sep post :
  forallb (fun l => negb (is_separator l)) pre = true ->
  is_separator sep = true ->
  forallb (fun l => negb (is_separator l)) post = true ->
  process_action_file (mkSpecFile name (pre ++ sep :: post)) pkg
  = (r <- process_srv_file (mkSpecFile name (pre ++ sep :: post)) pkg ;;
     let '(n, rq, rs) := r in Ok (n, rq, rs, [])).
Proof.
  intros Hpre Hsep Hpost.
  rewrite process_srv_file_sections, process_action_file_sections.
  cbn [stem lines].
  rewrite (request_lines_run _ _ Hpre), (response_lines_run _ _ Hpre).
  cbn [request_lines response_lines]. rewrite Hsep, app_nil_r.
  rewrite (filter_no_separator _ Hpost).
  rewrite !(lines_at_run _ _ _ _ Hpre), !(lines_at_separator _ _ _ _ Hsep).
  cbn [Nat.eqb Nat.add app].
  rewrite (lines_at_past 0 post 1) by lia. rewrite app_nil_r.
  rewrite !(lines_at_no_separator _ _ _ Hpost). cbn [Nat.eqb].
  destruct (section_fields pkg pre []); [|reflexivity]. cbn [bind].
  destruct (section_fields pkg post []); reflexivity.
Qed.

Lemma X14_one_separator_action_is_service_witness :
  process_action_file
    (mkSpecFile "S" (["int32 a" ++ nl] ++ ("---" ++ nl) :: ["string b" ++ nl]))
    "pkgX"
  = (r <- process_srv_file
            (mkSpecFile "S"
               (["int32 a" ++ nl] ++ ("---" ++ nl) :: ["string b" ++ nl]))
            "pkgX" ;;
     let '(n, rq, rs) := r in Ok (n, rq, rs, [])).
Proof.
  apply (X14_one_separator_action_is_service "pkgX" "S"); reflexivity.
Defined.

(** X15: the directory aggregators never raise and return one record per
    file, in the order of the files: each record carries the stem of its
    file and the sections its builder returns for that file. *)
Theorem X15_one_record_per_file files pkg :
  (exists msgs,
      process_msg_dir files pkg = Ok msgs /\
      Forall2 (fun f m => process_msg_file f pkg = Ok (msg_name m, message m)
                          /\ msg_name m = stem f) files msgs) /\
  (exists srvs,
      process_srv_dir files pkg = Ok srvs /\
      Forall2 (fun f s => process_srv_file f pkg
                          = Ok (srv_name s, request s, response s)
                          /\ srv_name s = stem f) files srvs) /\
  (exists acts,
      process_action_dir files pkg = Ok acts /\
      Forall2 (fun f a => process_action_file f pkg
                          = Ok (action_name a, goal a, result a, feedback a)
                          /\ action_name a = stem f) files acts).
Proof.
  split; [|split]; induction files as [|f files (xs & E & HF)];
    try (eexists; split; [reflexivity | constructor]).
  - cbn [process_msg_dir].
    assert (H : exists m, process_msg_file f pkg = Ok (stem f, m)).
    { unfold process_msg_file. rewrite msg_loop.
      destruct (section_fields_total pkg (lines f) []) as [m Em].
      rewrite Em. now exists m. }
    destruct H as [m Em]. rewrite Em, E. cbn [bind].
    eexists; split; [reflexivity|]. constructor; [|exact HF]. now split.
  - cbn [process_srv_dir].
    assert (H : exists rq rs, process_srv_file f pkg = Ok (stem f, rq, rs)).
    { rewrite process_srv_file_sections.
      destruct (section_fields_total pkg (request_lines (lines f)) []) as [rq E1].
      destruct (section_fields_total pkg (response_lines (lines f)) []) as [rs E2].
      rewrite E1, E2. now exists rq, rs. }
    destruct H as (rq & rs & Em). rewrite Em, E. cbn [bind].
    eexists; split; [reflexivity|]. constructor; [|exact HF]. now split.
  - cbn [process_action_dir].
    assert (H : exists g r fb,
               process_action_file f pkg = Ok (stem f, g, r, fb)).
    { rewrite process_action_file_sections.
      destruct (section_fields_total pkg (lines_at 0 0 (lines f)) []) as [g E0].
      destruct (section_fields_total pkg (lines_at 1 0 (lines f)) []) as [r E1].
      destruct (section_fields_total pkg (lines_at 2 0 (lines f)) []) as [fb E2].
      rewrite E0, E1, E2. now exists g, r, fb. }
    destruct H as (g & r & fb & Em). rewrite Em, E. cbn [bind].
    eexists; split; [reflexivity|]. constructor; [|exact HF]. now split.
Qed.

(** * Further properties of the topic-name fixer *)

Lemma effective_node_name_slash node :
  startswith (effective_node_name node) "/" = true.
Proof.
  unfold effective_node_name. destruct (startswith node "/") eqn:E; [exact E|].
  reflexivity.
Qed.

Lemma fix_topic_names_loop_any node topics acc :
  fix_topic_names_loop node topics acc
  = (acc ++ map (fun t => mkTopicInfo
                            (replace (effective_node_name node) "~"
                               (topic_name t)) (types t)) topics)%list.
Proof.
  destruct topics as [|t topics]; [cbn; now rewrite app_nil_r|].
  cbn [fix_topic_names_loop map]. fold (effective_node_name node).
  rewrite fix_topic_names_loop_slash by apply effective_node_name_slash.
  now rewrite <- app_assoc.
Qed.

(** X16: whatever the node name, the fixer returns one record per topic,
    in order, each with the type list of its topic. *)
Theorem X16_topic_records_are_kept node topics :
  List.length (fix_topic_names node topics) = List.length topics /\
  map types (fix_topic_names node topics) = map types topics.
Proof.
  unfold fix_topic_names. rewrite fix_topic_names_loop_any. cbn [app].
  split; [apply length_map|]. rewrite map_map. reflexivity.
Qed.

(** X17: for a node name that does not start with a slash, the topic
    names are rewritten against the fixed string [/node_name], not
    against the name of the node: the result is the same for all such
    node names. *)
Theorem X17_node_name_without_slash node topics :
  startswith node "/" = false ->
  fix_topic_names node topics
  = map (fun t => mkTopicInfo (replace "/node_name" "~" (topic_name t))
                    (types t)) topics.
Proof.
  intros H. unfold fix_topic_names. rewrite fix_topic_names_loop_any.
  unfold effective_node_name. now rewrite H.
Qed.

Lemma X17_node_name_without_slash_witness :
  fix_topic_names "talker"
    [mkTopicInfo "talker/chatter" ["std_msgs/msg/String"]]
  = map (fun t => mkTopicInfo (replace "/node_name" "~" (topic_name t))
                    (types t))
      [mkTopicInfo "talker/chatter" ["std_msgs/msg/String"]].
Proof.
  apply (X17_node_name_without_slash "talker"). reflexivity.
Defined.

(** * The topic-type fixer *)

Lemma contains_app_lacks c old a x :
  lacks c a = true ->
  contains (String c old) (a ++ x) = contains (String c old) x.
Proof.
  induction a as [|y a IH]; intros H; [reflexivity|].
  rewrite lacks_cons in H. apply andb_true_iff in H as [Hy Ha].
  apply negb_true_iff in Hy. cbn [append contains].
  now rewrite prefix_cons, Ascii.eqb_sym, Hy, (IH Ha).
Qed.

(** A string that lacks [c] has no prefix in which [c] occurs. *)
Lemma prefix_with_char_lacks c a b s :
  lacks c s = true -> prefix (a ++ String c b) s = false.
Proof.
  revert s. induction a as [|y a IH]; intros s H.
  - now apply prefix_lacks.
  - destruct s as [|x s]; [reflexivity|]. cbn [append].
    rewrite prefix_cons. rewrite lacks_cons in H.
    apply andb_true_iff in H as [_ H]. rewrite (IH _ H). apply andb_false_r.
Qed.

(** Between two slashes, two names without slash match only if equal. *)
Lemma prefix_segment c k k' x y :
  lacks c k = true -> lacks c k' = true ->
  prefix (k ++ String c x) (k' ++ String c y) = true -> k = k'.
Proof.
  revert k'. induction k as [|a k IH]; intros k' Hk Hk' H.
  - destruct k' as [|b k']; [reflexivity|]. cbn [append] in H.
    rewrite prefix_cons in H. rewrite lacks_cons in Hk'.
    apply andb_true_iff in Hk' as [Hb _]. apply negb_true_iff in Hb.
    rewrite Ascii.eqb_sym, Hb in H. discriminate H.
  - destruct k' as [|b k']; cbn [append] in H; rewrite prefix_cons in H;
      apply andb_true_iff in H as [Hab H].
    + rewrite lacks_cons in Hk. apply andb_true_iff in Hk as [Ha _].
      apply negb_true_iff in Ha. rewrite Ha in Hab. discriminate Hab.
    + apply Ascii.eqb_eq in Hab. subst b. f_equal.
      rewrite lacks_cons in Hk, Hk'.
      apply andb_true_iff in Hk as [_ Hk]. apply andb_true_iff in Hk' as [_ Hk'].
      now apply IH.
Qed.

(** In [p/k'/T] the marker [/k/] of another kind does not occur. *)
Lemma other_marker_absent k k' p T :
  lacks "/" p = true -> lacks "/" T = true ->
  lacks "/" k = true -> lacks "/" k' = true -> k <> k' ->
  contains ("/" ++ k ++ "/") (p ++ "/" ++ k' ++ "/" ++ T) = false.
Proof.
  intros Hp HT Hk Hk' Hne.
  change ("/" ++ k ++ "/") with (String "/" (k ++ "/")).
  rewrite (contains_app_lacks "/" (k ++ "/") p _ Hp).
  change ("/" ++ k' ++ "/" ++ T) with (String "/" (k' ++ String "/" T)).
  cbn [contains]. rewrite prefix_cons, Ascii.eqb_refl. cbn [andb].
  destruct (prefix (k ++ "/") (k' ++ String "/" T)) eqn:E.
  - apply prefix_segment in E; [contradiction | assumption | assumption].
  - cbn [orb]. rewrite (contains_app_lacks "/" (k ++ "/") k' _ Hk').
    cbn [contains]. rewrite prefix_cons, Ascii.eqb_refl. cbn [andb].
    rewrite (prefix_with_char_lacks "/" k "" T HT). cbn [orb].
    now apply contains_lacks.
Qed.

Lemma marker_replaced k p T :
  lacks "/" p = true -> lacks "/" T = true ->
  replace ("/" ++ k ++ "/") "." (p ++ "/" ++ k ++ "/" ++ T) = p ++ "." ++ T.
Proof.
  intros Hp HT. change ("/" ++ k ++ "/") with (String "/" (k ++ "/")).
  rewrite (replace_app_lacks "/" (k ++ "/") "." p _ Hp). f_equal.
  assert (E : "/" ++ k ++ "/" ++ T = String "/" (k ++ "/") ++ T).
  { cbn [append]. now rewrite append_assoc. }
  rewrite E, replace_prefix by discriminate.
  now rewrite (replace_lacks "/" (k ++ "/") "." T HT).
Qed.

Lemma fix_type_string_unscoped t :
  lacks "/" t = true -> fix_type_string t = dquote ++ t ++ dquote.
Proof.
  intros H. unfold fix_type_string. rewrite contains_char, H. cbn [negb].
  assert (L : lacks "/" (dquote ++ t ++ dquote) = true)
    by (rewrite !lacks_app, H; reflexivity).
  now rewrite !(replace_lacks "/" _ "." _ L).
Qed.

Lemma fix_type_string_kind kind p T :
  In kind ["msg"; "srv"; "action"] ->
  lacks "/" p = true -> lacks "/" T = true ->
  fix_type_string (p ++ "/" ++ kind ++ "/" ++ T) = p ++ "." ++ T.
Proof.
  intros Hk Hp HT. unfold fix_type_string.
  assert (Hc : contains "/" (p ++ "/" ++ kind ++ "/" ++ T) = true).
  { rewrite contains_char, lacks_app. cbn. now rewrite andb_false_r. }
  rewrite Hc. cbn [negb].
  assert (L : lacks "/" (p ++ "." ++ T) = true)
    by (rewrite !lacks_app, Hp, HT; reflexivity).
  pose proof (marker_replaced "msg" p T Hp HT) as Mm.
  pose proof (marker_replaced "srv" p T Hp HT) as Ms.
  pose proof (marker_replaced "action" p T Hp HT) as Ma.
  change ("/" ++ "msg" ++ "/") with "/msg/" in Mm.
  change ("/" ++ "srv" ++ "/") with "/srv/" in Ms.
  change ("/" ++ "action" ++ "/") with "/action/" in Ma.
  destruct Hk as [<-|[<-|[<-|[]]]].
  - rewrite Mm.
    now rewrite !(replace_lacks "/" _ "." _ L).
  - rewrite (replace_not_contains "/msg/" "." _ ltac:(discriminate)
               (other_marker_absent "msg" "srv" p T Hp HT eq_refl eq_refl
                  ltac:(discriminate))).
    rewrite Ms.
    now rewrite !(replace_lacks "/" _ "." _ L).
  - rewrite (replace_not_contains "/msg/" "." _ ltac:(discriminate)
               (other_marker_absent "msg" "action" p T Hp HT eq_refl eq_refl
                  ltac:(discriminate))).
    rewrite (replace_not_contains "/srv/" "." _ ltac:(discriminate)
               (other_marker_absent "srv" "action" p T Hp HT eq_refl eq_refl
                  ltac:(discriminate))).
    exact Ma.
Qed.

(** ** The store *)

Lemma setitem_spec {A : Type} (l : list A) i y x :
  nth_error l i = Some y ->
  exists l',
    setitem l i x = Ok l' /\ nth_error l' i = Some x /\
    (forall j, j <> i -> nth_error l' j = nth_error l j) /\
    (forall z, setitem l' i z = setitem l i z) /\
    (forall (B : Type) (f : A -> B), f x = f y -> map f l' = map f l).
Proof.
  revert i. induction l as [|a l IH]; intros i H; [now destruct i|].
  destruct i as [|i]; cbn [nth_error] in H.
  - injection H as ->. exists (x :: l). cbn. repeat split; try reflexivity.
    + intros [|j] Hj; [congruence | reflexivity].
    + intros B f E. now rewrite E.
  - destruct (IH i H) as (l' & E & N & O & S & M). exists (a :: l').
    cbn [setitem]. rewrite E. cbn [bind nth_error]. repeat split; try assumption.
    + intros [|j] Hj; [reflexivity|]. cbn [nth_error]. apply O. congruence.
    + intros z. now rewrite S.
    + intros B f Ef. cbn [map]. now rewrite (M B f Ef).
Qed.

Lemma setitem_out {A : Type} (l : list A) i x :
  nth_error l i = None -> setitem l i x = IndexError.
Proof.
  revert i. induction l as [|a l IH]; intros i H; [now destruct i|].
  destruct i as [|i]; [discriminate H|]. cbn [setitem nth_error] in *.
  now rewrite (IH i H).
Qed.

Section OneTopic.

Variables (st0 st : store) (n : string) (a : nat) (t : string)
          (tl : list string).
Hypothesis at_a : nth_error st a = Some (t :: tl).
Hypothesis same : forall z, setitem st a z = setitem st0 a z.

Lemma types0_ok : types0 st (mkTopicRef n a) = Ok t.
Proof. unfold types0, getitem. cbn [ref_types]. now rewrite at_a. Qed.

Lemma set_types0_ok v :
  set_types0 st (mkTopicRef n a) v = setitem st0 a (v :: tl).
Proof.
  unfold set_types0, getitem. cbn [ref_types]. rewrite at_a. cbn [bind setitem].
  apply same.
Qed.

Lemma set_types0_next v :
  exists st1,
    set_types0 st (mkTopicRef n a) v = Ok st1 /\
    nth_error st1 a = Some (v :: tl) /\
    (forall z, setitem st1 a z = setitem st0 a z).
Proof.
  destruct (setitem_spec st a _ (v :: tl) at_a) as (st1 & E & N & _ & S & _).
  exists st1. rewrite set_types0_ok, <- same. repeat split; try assumption.
  intros z. now rewrite S.
Qed.

End OneTopic.

Lemma fix_body_tail st0 st n a t tl :
  nth_error st a = Some (t :: tl) ->
  (forall z, setitem st a z = setitem st0 a z) ->
  (t1 <- types0 st (mkTopicRef n a) ;;
   st1 <- set_types0 st (mkTopicRef n a) (replace "/msg/" "." t1) ;;
   t2 <- types0 st1 (mkTopicRef n a) ;;
   st2 <- set_types0 st1 (mkTopicRef n a) (replace "/srv/" "." t2) ;;
   t3 <- types0 st2 (mkTopicRef n a) ;;
   set_types0 st2 (mkTopicRef n a) (replace "/action/" "." t3))
  = setitem st0 a
      (replace "/action/" "." (replace "/srv/" "." (replace "/msg/" "." t))
       :: tl).
Proof.
  intros H S. rewrite (types0_ok st n a t tl H). cbn [bind].
  destruct (set_types0_next st0 st n a t tl H S (replace "/msg/" "." t))
    as (st1 & E1 & H1 & S1).
  rewrite E1. cbn [bind]. rewrite (types0_ok st1 n a _ tl H1). cbn [bind].
  destruct (set_types0_next st0 st1 n a _ tl H1 S1
              (replace "/srv/" "." (replace "/msg/" "." t)))
    as (st2 & E2 & H2 & S2).
  rewrite E2. cbn [bind]. rewrite (types0_ok st2 n a _ tl H2). cbn [bind].
  exact (set_types0_ok st0 st2 n a _ tl H2 S2 _).
Qed.

(** The body replaces the first type of the list by its fixed form. *)
Lemma fix_body_effect st n a t tl :
  nth_error st a = Some (t :: tl) ->
  fix_topic_types_body st (mkTopicRef n a)
  = setitem st a (fix_type_string t :: tl).
Proof.
  intros H. unfold fix_topic_types_body, fix_type_string.
  rewrite (types0_ok st n a t tl H). cbn [bind].
  destruct (negb (contains "/" t)).
  - cbn [bind].
    destruct (set_types0_next st st n a t tl H (fun z => eq_refl)
                (dquote ++ t ++ dquote)) as (st1 & E1 & H1 & S1).
    rewrite E1. cbn [bind]. exact (fix_body_tail st st1 n a _ tl H1 S1).
  - cbn [bind]. exact (fix_body_tail st st n a t tl H (fun z => eq_refl)).
Qed.

Lemma fix_body_raises st n a :
  nth_error st a = None \/ nth_error st a = Some [] ->
  fix_topic_types_body st (mkTopicRef n a) = IndexError.
Proof.
  intros [H|H]; unfold fix_topic_types_body, types0, getitem;
    cbn [ref_types]; now rewrite H.
Qed.

(** What a run of the body leaves of the store. *)
Lemma fix_body_frame st topic st' :
  fix_topic_types_body st topic = Ok st' ->
  map (@List.tl string) st' = map (@List.tl string) st /\
  map (@List.length string) st' = map (@List.length string) st /\
  (forall b, b <> ref_types topic -> nth_error st' b = nth_error st b).
Proof.
  destruct topic as [n a]. cbn [ref_types]. intros E.
  destruct (nth_error st a) as [[|t tl]|] eqn:H.
  - rewrite fix_body_raises in E by now right. discriminate E.
  - rewrite (fix_body_effect st n a t tl H) in E.
    destruct (setitem_spec st a _ (fix_type_string t :: tl) H)
      as (st1 & E1 & _ & O & _ & M).
    rewrite E1 in E. injection E as <-.
    split; [now apply M | split; [now apply M | exact O]].
  - rewrite fix_body_raises in E by now left. discriminate E.
Qed.

Lemma same_lengths_same_empty (st st' : store) b :
  map (@List.length string) st' = map (@List.length string) st ->
  (nth_error st' b = Some [] <-> nth_error st b = Some []) /\
  (b < List.length st' <-> b < List.length st).
Proof.
  intros M. split.
  - pose proof (f_equal (fun l => nth_error l b) M) as E. cbn in E.
    rewrite !nth_error_map in E.
    destruct (nth_error st' b) as [[|x l]|], (nth_error st b) as [[|y k]|];
      cbn in E; try discriminate E; split; congruence.
  - pose proof (f_equal (@List.length nat) M) as E.
    rewrite !length_map in E. now rewrite E.
Qed.

(** X18: a type [P/msg/T], [P/srv/T] or [P/action/T], with no slash in
    [P] and [T], is rewritten in place to the dotted form [P.T]; the
    other types of the list stay. *)
Theorem X18_kind_marker_becomes_dot node st n a kind p T tl :
  In kind ["msg"; "srv"; "action"] ->
  lacks "/" p = true -> lacks "/" T = true ->
  nth_error st a = Some ((p ++ "/" ++ kind ++ "/" ++ T) :: tl) ->
  fix_topic_types node st [mkTopicRef n a]
  = setitem st a ((p ++ "." ++ T) :: tl).
Proof.
  intros Hk Hp HT H. unfold fix_topic_types. cbn [for_each_topic].
  rewrite (fix_body_effect st n a _ tl H).
  rewrite (fix_type_string_kind kind p T Hk Hp HT).
  now destruct (setitem st a ((p ++ "." ++ T) :: tl)).
Qed.

Lemma X18_kind_marker_becomes_dot_witness :
  fix_topic_types "/talker"
    [["std_msgs" ++ "/" ++ "msg" ++ "/" ++ "String"]]
    [mkTopicRef "/chatter" 0]
  = setitem [["std_msgs" ++ "/" ++ "msg" ++ "/" ++ "String"]] 0
      (("std_msgs" ++ "." ++ "String") :: []).
Proof.
  apply (X18_kind_marker_becomes_dot "/talker"
           [["std_msgs" ++ "/" ++ "msg" ++ "/" ++ "String"]] "/chatter" 0
           "msg" "std_msgs" "String" []);
    [cbn; tauto | reflexivity | reflexivity | reflexivity].
Defined.

(** X19: a type without slash is put between double quotes, in place. *)
Theorem X19_unscoped_type_is_quoted node st n a t tl :
  lacks "/" t = true ->
  nth_error st a = Some (t :: tl) ->
  fix_topic_types node st [mkTopicRef n a]
  = setitem st a ((dquote ++ t ++ dquote) :: tl).
Proof.
  intros Ht H. unfold fix_topic_types. cbn [for_each_topic].
  rewrite (fix_body_effect st n a _ tl H), (fix_type_string_unscoped t Ht).
  now destruct (setitem st a ((dquote ++ t ++ dquote) :: tl)).
Qed.

Lemma X19_unscoped_type_is_quoted_witness :
  fix_topic_types "/talker" [["String"]] [mkTopicRef "/chatter" 0]
  = setitem [["String"]] 0 ((dquote ++ "String" ++ dquote) :: []).
Proof.
  apply (X19_unscoped_type_is_quoted "/talker" [["String"]] "/chatter" 0
           "String" []); reflexivity.
Defined.

(** X20: when [fix_topic_types] returns, only first elements of type
    lists have changed: every list keeps its length and its elements
    after the first, and a list no topic refers to is untouched. *)
Theorem X20_only_first_types_change node st topics st' :
  fix_topic_types node st topics = Ok st' ->
  map (@List.tl string) st' = map (@List.tl string) st /\
  map (@List.length string) st' = map (@List.length string) st /\
  (forall b, (forall t, In t topics -> ref_types t <> b) ->
             nth_error st' b = nth_error st b).
Proof.
  unfold fix_topic_types. revert st.
  induction topics as [|t topics IH]; intros st E.
  - injection E as <-. now repeat split.
  - cbn [for_each_topic] in E.
    destruct (fix_topic_types_body st t) as [st1|] eqn:E1; [|discriminate E].
    cbn [bind] in E. destruct (fix_body_frame _ _ _ E1) as (T1 & L1 & O1).
    destruct (IH _ E) as (T2 & L2 & O2).
    split; [congruence | split; [congruence|]].
    intros b Hb. rewrite O2, O1; [reflexivity | |].
    + intros Heq. apply (Hb t); [now left | now symmetry].
    + intros t' Hin. apply Hb. now right.
Qed.

Lemma X20_only_first_types_change_witness :
  map (@List.tl string) [["a.B"; "x/y"]; ["keep/msg/Me"]]
  = map (@List.tl string) [["a/msg/B"; "x/y"]; ["keep/msg/Me"]] /\
  map (@List.length string) [["a.B"; "x/y"]; ["keep/msg/Me"]]
  = map (@List.length string) [["a/msg/B"; "x/y"]; ["keep/msg/Me"]] /\
  (forall b, (forall t, In t [mkTopicRef "/t" 0] -> ref_types t <> b) ->
             nth_error [["a.B"; "x/y"]; ["keep/msg/Me"]] b
             = nth_error [["a/msg/B"; "x/y"]; ["keep/msg/Me"]] b).
Proof.
  apply (X20_only_first_types_change "/n"
           [["a/msg/B"; "x/y"]; ["keep/msg/Me"]] [mkTopicRef "/t" 0]).
  reflexivity.
Defined.

(** X21: with every record referring to a list of the store,
    [fix_topic_types] raises [IndexError] exactly when some topic has an
    empty type list. *)
Theorem X21_empty_type_list_raises node st topics :
  Forall (fun t => ref_types t < List.length st) topics ->
  (fix_topic_types node st topics = IndexError <->
   Exists (fun t => nth_error st (ref_types t) = Some []) topics).
Proof.
  unfold fix_topic_types. revert st.
  induction topics as [|[n a] topics IH]; intros st Hv.
  - cbn. split; [discriminate | intros H; inversion H].
  - apply Forall_cons_iff in Hv as [Ha Hv]. cbn [ref_types] in Ha.
    cbn [for_each_topic].
    destruct (nth_error st a) as [[|t tl]|] eqn:H.
    + rewrite fix_body_raises by now right. cbn [bind].
      split; [intros _; now left | reflexivity].
    + rewrite (fix_body_effect st n a t tl H).
      destruct (setitem_spec st a _ (fix_type_string t :: tl) H)
        as (st1 & E1 & _ & _ & _ & M).
      rewrite E1. cbn [bind].
      assert (ML : map (@List.length string) st1 = map (@List.length string) st)
        by now apply M.
      rewrite IH.
      * rewrite Exists_cons. cbn [ref_types]. rewrite H.
        split; [intros HE; right | intros [HE|HE]; [discriminate HE|]];
          (eapply Exists_impl; [|exact HE]); intros t' Ht';
          now apply (same_lengths_same_empty st st1 (ref_types t') ML).
      * eapply Forall_impl; [|exact Hv]. intros t' Ht'.
        now apply (same_lengths_same_empty st st1 (ref_types t') ML).
    + apply nth_error_None in H. lia.
Qed.

Lemma X21_empty_type_list_raises_witness :
  fix_topic_types "/n" [["a/msg/B"]; []] [mkTopicRef "/t" 0; mkTopicRef "/u" 1]
  = IndexError <->
  Exists (fun t => nth_error [["a/msg/B"]; []] (ref_types t) = Some [])
    [mkTopicRef "/t" 0; mkTopicRef "/u" 1].
Proof.
  apply (X21_empty_type_list_raises "/n" [["a/msg/B"]; []]
           [mkTopicRef "/t" 0; mkTopicRef "/u" 1]).
  repeat constructor.
Defined.

(** X22: the fixer is not idempotent on a shared list: when two records
    refer to the same type list, its first type [P/msg/T] is fixed twice
    and ends as the dotted form between double quotes. *)
Theorem X22_shared_list_is_fixed_twice node st n1 n2 a p T tl :
  lacks "/" p = true -> lacks "/" T = true ->
  nth_error st a = Some ((p ++ "/" ++ "msg" ++ "/" ++ T) :: tl) ->
  fix_topic_types node st [mkTopicRef n1 a; mkTopicRef n2 a]
  = setitem st a ((dquote ++ (p ++ "." ++ T) ++ dquote) :: tl).
Proof.
  intros Hp HT H. unfold fix_topic_types. cbn [for_each_topic].
  rewrite (fix_body_effect st n1 a _ tl H).
  rewrite (fix_type_string_kind "msg" p T ltac:(cbn; tauto) Hp HT).
  destruct (setitem_spec st a _ ((p ++ "." ++ T) :: tl) H)
    as (st1 & E1 & H1 & _ & S1 & _).
  rewrite E1. cbn [bind]. rewrite (fix_body_effect st1 n2 a _ tl H1).
  rewrite fix_type_string_unscoped
    by (rewrite !lacks_app, Hp, HT; reflexivity).
  rewrite S1.
  now destruct (setitem st a ((dquote ++ (p ++ "." ++ T) ++ dquote) :: tl)).
Qed.

Lemma X22_shared_list_is_fixed_twice_witness :
  fix_topic_types "/n" [["std_msgs" ++ "/" ++ "msg" ++ "/" ++ "String"]]
    [mkTopicRef "/chatter" 0; mkTopicRef "/echo" 0]
  = setitem [["std_msgs" ++ "/" ++ "msg" ++ "/" ++ "String"]] 0
      ((dquote ++ ("std_msgs" ++ "." ++ "String") ++ dquote) :: []).
Proof.
  apply (X22_shared_list_is_fixed_twice "/n"
           [["std_msgs" ++ "/" ++ "msg" ++ "/" ++ "String"]]
           "/chatter" "/echo" 0 "std_msgs" "String" []); reflexivity.
Defined.

(** * The parameter-type labels *)

Lemma display_lookup_In k items v :
  display_lookup k items = Some v -> In (k, v) items.
Proof.
  induction items as [|[k' v'] items IH]; [discriminate|].
  cbn [display_lookup]. destruct (display_lookup k items) as [w|].
  - intros E. injection E as <-. right. now apply IH.
  - destruct (Nat.eqb_spec k k') as [->|]; [|discriminate].
    intros E. injection E as <-. now left.
Qed.





(** X24: two values with the same label are the same value: the label
    tells the parameter type, whatever the constants are. *)
Theorem X24_label_determines_kind P c1 c2 label :
  get_parameter_type_string P c1 = Some label ->
  get_parameter_type_string P c2 = Some label ->
  c1 = c2.
Proof.
  unfold get_parameter_type_string. intros H1 H2.
  apply display_lookup_In in H1, H2. unfold parameter_type_items in *.
  cbn [In] in H1, H2.
  repeat match goal with H : _ \/ _ |- _ => destruct H end;
    try contradiction;
    repeat match goal with
           | H : (_, _) = (_, _) |- _ => inversion H; clear H
           end;
    subst; congruence.
Qed.

Lemma X24_label_determines_kind_witness : 1 = 1.
Proof.
  apply (X24_label_determines_kind (mkParameterType 0 1 2 3 4 5 6 7 8 9)
           1 1 "Boolean"); reflexivity.
Defined.

(** * What the tokenizer returns *)

Lemma rstrip_app_nospace a b :
  b <> "" -> nospace b = true -> rstrip (a ++ b) = a ++ b.
Proof.
  intros Hb Hn. induction a as [|c a IH].
  - now apply rstrip_nospace.
  - cbn [append rstrip]. rewrite IH.
    destruct (a ++ b) eqn:E; [|reflexivity].
    destruct a; [cbn in E; congruence | discriminate E].
Qed.

Lemma lstrip_first_nospace n x :
  n <> "" -> nospace n = true -> lstrip (n ++ x) = n ++ x.
Proof.
  destruct n as [|c n]; [congruence|]. intros _ H. unfold nospace in H.
  cbn [all_chars] in H. apply andb_true_iff in H as [Hc _].
  apply negb_true_iff in Hc. cbn [append lstrip]. now rewrite Hc.
Qed.

Lemma span_token_nospace s tok rest :
  span_token s = (tok, rest) -> nospace tok = true.
Proof.
  revert tok rest. induction s as [|c s IH]; intros tok rest E.
  - injection E as <- <-. reflexivity.
  - cbn [span_token] in E. destruct (is_space c) eqn:Hc.
    + injection E as <- <-. reflexivity.
    + destruct (span_token s) as [tok' rest']. injection E as <- <-.
      unfold nospace. cbn [all_chars]. rewrite Hc.
      exact (IH tok' rest' eq_refl).
Qed.

Lemma lstrip_starts_nospace s c r :
  lstrip s = String c r -> is_space c = false.
Proof.
  induction s as [|x s IH]; [discriminate|]. cbn [lstrip].
  destruct (is_space x) eqn:Hx; [exact IH|]. intros E. now injection E as <- _.
Qed.

Lemma split_maxsplit1_tokens s s0 rest :
  split_maxsplit1 s = s0 :: rest ->
  s0 <> "" /\ nospace s0 = true /\
  (rest = [] \/
   exists c r, rest = [String c r] /\ is_space c = false).
Proof.
  unfold split_maxsplit1. destruct (lstrip s) as [|c r] eqn:El; [discriminate|].
  pose proof (lstrip_starts_nospace _ _ _ El) as Hc.
  destruct (span_token (String c r)) as [tok rest'] eqn:Es.
  pose proof (span_token_nospace _ _ _ Es) as Hn.
  assert (Hne : tok <> "").
  { cbn [span_token] in Es. rewrite Hc in Es.
    destruct (span_token r). injection Es as <- _. discriminate. }
  destruct (lstrip rest') as [|c' r'] eqn:El'; intros E; injection E as <- <-.
  - now repeat split; try left.
  - repeat split; try assumption. right. exists c', r'. split; [reflexivity|].
    exact (lstrip_starts_nospace _ _ _ El').
Qed.

Lemma replace_char_nonempty c new s :
  s <> "" -> new <> "" -> replace (String c "") new s <> "".
Proof.
  destruct s as [|x s]; [congruence|]. intros _ Hn. rewrite replace_char_cons.
  destruct (Ascii.eqb x c); [|discriminate].
  destruct new; [congruence | discriminate].
Qed.

Lemma strip_nonempty c r : is_space c = false -> strip (String c r) <> "".
Proof.
  intros Hc. unfold strip. cbn [lstrip]. rewrite Hc. cbn [rstrip].
  destruct (rstrip r); [now rewrite Hc | discriminate].
Qed.

(** What [split_line] returns, read off the token list. *)
Lemma split_line_inv line ty nm :
  split_line line = Ok (ty, nm) ->
  (ty = None /\ nm = None) \/
  exists x s0 rest,
    split_maxsplit1 (re_sub_brackets x) = s0 :: rest /\
    ty = Some (strip (replace "/" "/msg/" s0)) /\
    nm = match rest with [] => None | r :: _ => Some (strip r) end.
Proof.
  unfold split_line. set (l := replace nl "" line).
  destruct (startswith l "#" || contains "=" l
            || (String.length l =? 0)%nat || isspace l);
    [intros E; injection E as <- <-; now left|].
  set (m := if contains "#" l then getitem (split_char "#" l) 0 else Ok l).
  destruct m as [x|]; [|discriminate]. cbn [bind].
  destruct (isspace x); [intros E; injection E as <- <-; now left|].
  destruct (split_maxsplit1 (re_sub_brackets x)) as [|s0 [|r rest]] eqn:Es;
    [discriminate | |]; cbn; intros E; injection E as <- <-; right;
    exists x, s0; eexists; (split; [exact Es | split; reflexivity]).
Qed.

(** X25: only the first run of blanks splits the line: further words
    stay in the name, so a field line with a default value
    [T NAME VALUE] yields the name [NAME VALUE]. *)
Theorem X25_further_words_stay_in_the_name (t n d : string) :
  unscoped_type t = true -> field_name n = true -> field_name d = true ->
  split_line (t ++ " " ++ n ++ " " ++ d) = Ok (Some t, Some (n ++ " " ++ d)).
Proof.
  intros Ht Hn Hd. apply unscoped_type_inv in Ht as [Hte Ht].
  apply field_name_inv in Hn as [Hne Hn].
  apply field_name_inv in Hd as [Hde Hd].
  assert (St : nospace t = true) by chars.
  assert (Sn : nospace n = true) by chars.
  assert (Sd : nospace d = true) by chars.
  set (line := t ++ " " ++ n ++ " " ++ d).
  assert (L1 : lacks LF line = true) by (subst line; chars).
  assert (L2 : lacks "=" line = true) by (subst line; chars).
  assert (L3 : lacks "#" line = true) by (subst line; chars).
  assert (L4 : lacks "[" line = true) by (subst line; chars).
  rewrite (split_line_plain_pair line L1 L2 L3
             (not_blank_token _ _ Hte St) t (n ++ " " ++ d)).
  - rewrite (replace_lacks "/" "" "/msg/" t) by chars.
    rewrite (strip_nospace _ St). unfold strip.
    rewrite (lstrip_first_nospace n _ Hne Sn).
    rewrite <- (append_assoc n " " d).
    now rewrite (rstrip_app_nospace _ d Hde Sd).
  - rewrite (re_sub_lacks_open _ L4). subst line.
    exact (split_maxsplit1_spaced "" t " " n (" " ++ d) eq_refl Hte St
             ltac:(discriminate) eq_refl Hne Sn).
Qed.

Lemma X25_further_words_stay_in_the_name_witness :
  split_line ("int32" ++ " " ++ "count" ++ " " ++ "5")
  = Ok (Some "int32", Some ("count" ++ " " ++ "5")).
Proof.
  apply (X25_further_words_stay_in_the_name "int32" "count" "5"); reflexivity.
Defined.

(** X26: a line that declares a name the section already holds changes
    the type of that field and leaves the order of the fields as it
    was: a field keeps the place of its first declaration. *)
Theorem X26_redeclaration_keeps_the_place pkg pre late x ty d :
  section_fields pkg pre [] = Ok d ->
  get_type_format late pkg = Ok (x, Some ty) ->
  In x (keys d) ->
  exists d',
    section_fields pkg (pre ++ [late]) [] = Ok d' /\
    keys d' = keys d /\ dict_get x d' = Some ty.
Proof.
  intros Hd Hl Hin. exists (dict_set x ty d). split; [|split].
  - unfold section_fields in *. rewrite for_each_app, Hd. cbn [bind for_each].
    unfold field_body. now rewrite Hl.
  - now apply keys_dict_set_in.
  - apply dict_get_set_eq.
Qed.

Lemma X26_redeclaration_keeps_the_place_witness :
  exists d',
    section_fields "pkgX"
      (["int32 x" ++ nl; "int32 y" ++ nl] ++ ["string x" ++ nl]) [] = Ok d' /\
    keys d' = keys [(Some "x", "int32"); (Some "y", "int32")] /\
    dict_get (Some "x") d' = Some "string".
Proof.
  apply (X26_redeclaration_keeps_the_place "pkgX"
           ["int32 x" ++ nl; "int32 y" ++ nl] ("string x" ++ nl) (Some "x")
           "string" [(Some "x", "int32"); (Some "y", "int32")]);
    [reflexivity | reflexivity | cbn; tauto].
Defined.

(** X27: the tokenizer returns clean tokens: a type token is never empty
    and holds no whitespace, a name is never empty, and there is no name
    without a type. *)
Theorem X27_tokens_are_clean line ty nm :
  split_line line = Ok (ty, nm) ->
  (forall t, ty = Some t -> t <> "" /\ nospace t = true) /\
  (forall n, nm = Some n -> n <> "") /\
  (ty = None -> nm = None).
Proof.
  intros E. apply split_line_inv in E as [[-> ->]|(x & s0 & rest & Es & -> & ->)].
  - repeat split; congruence.
  - apply split_maxsplit1_tokens in Es as (Hne & Hn & Hrest).
    assert (Hr : nospace (replace "/" "/msg/" s0) = true)
      by now apply all_chars_replace_char.
    rewrite (strip_nospace _ Hr). split; [|split].
    + intros t Et. injection Et as Et. subst t. split; [|exact Hr].
      apply replace_char_nonempty; [exact Hne | discriminate].
    + intros n En. destruct Hrest as [->|(c & r & -> & Hc)]; [discriminate En|].
      injection En as En. subst n. now apply strip_nonempty.
    + discriminate.
Qed.

Lemma X27_tokens_are_clean_witness :
  (forall t, Some "a/msg/B[]" = Some t -> t <> "" /\ nospace t = true) /\
  (forall n, Some "items" = Some n -> n <> "") /\
  (Some "a/msg/B[]" = None -> Some "items" = None).
Proof.
  apply (X27_tokens_are_clean "  a/B[3]   items  # list").
  reflexivity.
Defined.
